(** * FlipperPi: the continuous scan loop of [Python/Flipper.py]

    A shallow embedding of [FlipperPiDevice] and of its background loop.
    The Python code talks to the outside world through library calls
    (GPIO, [subprocess], PyBluez, the OLED driver, [logging], [time.sleep]).
    Every such call is recorded as an [Event]; what the call answers is
    decided by an environment [Env] that sees the whole history of calls
    made so far.  Python exceptions of class [Exception] are values of
    type [exn]; a computation either returns or raises.  Exceptions outside
    that class ([KeyboardInterrupt], [SystemExit]) end the process and are
    not part of the model.  The loop has no exit: [scan_loop n] is its
    first [n] turns. *)

From Stdlib Require Import List String Ascii ZArith Lia Bool Arith DecimalString.
Import ListNotations.
Open Scope string_scope.
Open Scope list_scope.

(** String concatenation, as in an f-string. *)
Infix "+++" := String.append (right associativity, at level 60).

(** ** Python strings and lists *)

Module Py.

(** [s.split(sep)] for a one-character separator. *)
Fixpoint split (sep : ascii) (s : string) : list string :=
  match s with
  | EmptyString => [EmptyString]
  | String c s' =>
      if Ascii.eqb c sep then EmptyString :: split sep s'
      else match split sep s' with
           | [] => [String c EmptyString]
           | seg :: segs => String c seg :: segs
           end
  end.

(** [needle in s]. *)
Fixpoint contains (needle s : string) : bool :=
  if String.prefix needle s then true
  else match s with
       | EmptyString => false
       | String _ s' => contains needle s'
       end.

(** [str(n)] for a length. *)
Definition str_of_nat (n : nat) : string :=
  NilEmpty.string_of_uint (Nat.to_uint n).

Definition newline : ascii := ascii_of_nat 10.
Definition dquote : ascii := ascii_of_nat 34.

(** The one-character string holding a double quote. *)
Definition q : string := String dquote EmptyString.

(** Does the character occur in the string? *)
Fixpoint has_char (c : ascii) (s : string) : bool :=
  match s with
  | EmptyString => false
  | String d s' => if Ascii.eqb d c then true else has_char c s'
  end.

End Py.

(** ** Exceptions *)

(** An exception carries its class name and the text [str(e)] shows. *)
Inductive exn : Type :=
| PyExn (cls : string) (msg : string).

Definition str (e : exn) : string :=
  match e with PyExn _ msg => msg end.

Definition IndexError : exn := PyExn "IndexError" "list index out of range".

(** ** Data model *)

(** [{'ssid': essid}] *)
Record network : Type := { ssid : string }.

(** A service record of PyBluez; the program never looks inside. *)
Definition Service : Type := string.

(** [{'address': addr, 'name': name}], to which the advanced scan adds the
    key ['services'] ([None] while the key is absent). *)
Record device : Type := {
  address : string;
  name : string;
  services : option (list Service)
}.

Definition set_services (d : device) (s : list Service) : device :=
  {| address := address d; name := name d; services := Some s |}.

Inductive Level : Type := HIGH | LOW.

Inductive NFCReader : Type := NFCReader_new.
Inductive BluetoothScanner : Type := BluetoothScanner_new.
Inductive Display : Type := SSD1306.

(** The attributes of [self] that [setup_modules] assigns.  [display] is
    [None] when the attribute was never set ([hasattr] is false); the two
    others are [None] when they hold Python's [None]. *)
Record FlipperPiDevice : Type := {
  display : option Display;
  nfc_reader : option NFCReader;
  bluetooth_scanner : option BluetoothScanner
}.

Definition LED_PIN : Z := 18.

(** ** Calls to the outside world *)

Inductive Event : Type :=
| GPIO_output (pin : Z) (value : Level)
| subprocess_check_output (argv : list string)
| bluetooth_discover_devices (duration : Z) (lookup_names : bool)
| bluetooth_find_service (addr : string)
| board_I2C
| SSD1306_I2C (width height : Z)
| display_fill (color : Z)
| display_text (text : string) (x y color : Z)
| display_show
| nfc_read
| logger_info (msg : string)
| logger_warning (msg : string)
| logger_error (msg : string)
| print (msg : string)
| time_sleep (secs : Z).

(** What the collaborators answer, given the calls made so far.  Logging,
    [print] and [time.sleep] always return. *)
Record Env : Type := {
  gpio_answer : list Event -> Z -> Level -> exn + unit;
  check_output_answer : list Event -> list string -> exn + string;
  discover_devices_answer : list Event -> exn + list (string * string);
  find_service_answer : list Event -> string -> exn + list Service;
  display_answer : list Event -> Event -> exn + unit
}.

(** ** The monad: history in, result and new events out *)

Definition M (A : Type) : Type := list Event -> (exn + A) * list Event.

Definition ret {A} (a : A) : M A := fun _ => (inr a, []).

Definition raise {A} (e : exn) : M A := fun _ => (inl e, []).

Definition bind {A B} (m : M A) (k : A -> M B) : M B :=
  fun h =>
    match m h with
    | (inl e, ev) => (inl e, ev)
    | (inr a, ev) =>
        match k a (h ++ ev) with
        | (r, ev') => (r, ev ++ ev')
        end
    end.

(** [try: m  except Exception as e: handler e] *)
Definition try_except {A} (m : M A) (handler : exn -> M A) : M A :=
  fun h =>
    match m h with
    | (inl e, ev) =>
        match handler e (h ++ ev) with
        | (r, ev') => (r, ev ++ ev')
        end
    | (inr a, ev) => (inr a, ev)
    end.

(** One call to the outside: the call is recorded, the answer is given. *)
Definition call {A} (e : Event) (answer : list Event -> exn + A) : M A :=
  fun h => (answer h, [e]).

(** A call that cannot raise. *)
Definition emit (e : Event) : M unit := fun _ => (inr tt, [e]).

Declare Scope py_scope.
Delimit Scope py_scope with py.
Notation "x <- m ;; k" := (bind m (fun x => k))
  (at level 100, m at next level, right associativity) : py_scope.
Notation "m ;;; k" := (bind m (fun _ => k))
  (at level 100, right associativity) : py_scope.
Notation "'try' m 'except' h" := (try_except m h)
  (at level 100, m at next level, h at next level) : py_scope.

(** [for x in l: body], the loop's local variables threaded as [s]. *)
Fixpoint for_in {A S} (l : list A) (body : A -> S -> M S) (s : S) : M S :=
  match l with
  | [] => ret s
  | x :: l' => bind (body x s) (for_in l' body)
  end.

(** [l[i]] *)
Definition index {A} (l : list A) (i : nat) : M A :=
  match nth_error l i with
  | Some x => ret x
  | None => raise IndexError
  end.

(** The events of a computation, its result, and the time it sleeps. *)
Definition events {A} (m : M A) (h : list Event) : list Event := snd (m h).
Definition result {A} (m : M A) (h : list Event) : exn + A := fst (m h).

Definition sleep_of (e : Event) : Z :=
  match e with time_sleep s => s | _ => 0 end.

Definition slept (ev : list Event) : Z :=
  fold_right (fun e acc => sleep_of e + acc)%Z 0%Z ev.

Definition is_led (v : Level) (e : Event) : bool :=
  match e, v with
  | GPIO_output pin HIGH, HIGH => Z.eqb pin LED_PIN
  | GPIO_output pin LOW, LOW => Z.eqb pin LED_PIN
  | _, _ => false
  end.

Definition is_gpio (e : Event) : bool :=
  match e with GPIO_output _ _ => true | _ => false end.

Definition is_nfc_read (e : Event) : bool :=
  match e with nfc_read => true | _ => false end.

Definition is_loop_error (e : Event) : bool :=
  match e with
  | logger_error msg => String.prefix "Erro no loop de varredura: " msg
  | _ => false
  end.

Definition count (p : Event -> bool) (ev : list Event) : nat :=
  List.length (filter p ev).

(** A computation that always returns. *)
Definition total {A} (m : M A) : Prop :=
  forall h, exists a, fst (m h) = inr a.

(** A computation all of whose events satisfy [P]. *)
Definition emits {A} (P : Event -> Prop) (m : M A) : Prop :=
  forall h, Forall P (snd (m h)).

(** ** The device *)

Section Device.

Variable env : Env.

Local Open Scope py_scope.

(** [NFCReader.read]: the stub of the source answers a constant; the call
    is recorded so that polling the reader is visible in a trace. *)
Definition NFCReader_read (r : NFCReader) : M string :=
  emit nfc_read ;;; ret "Nenhuma tag detectada".

Definition initialize_nfc : M (option NFCReader) :=
  try (ret (Some NFCReader_new))
  except (fun e =>
    emit (logger_error ("Erro na configuração NFC: " +++ str e)) ;;;
    ret None).

(** [BluetoothScanner.discover].  The loop that fills [devices] cannot
    raise, so an exception can only come from the discovery call, when
    [devices] is still empty: the handler's [return devices] returns []. *)
Definition discover (sc : BluetoothScanner) (duration : Z) : M (list device) :=
  try (nearby_devices <-
         call (bluetooth_discover_devices duration true)
              (discover_devices_answer env) ;;
       for_in nearby_devices
         (fun '(addr, nm) devices =>
            ret (devices ++ [{| address := addr; name := nm; services := None |}]))
         [])
  except (fun e =>
    emit (print ("Erro na varredura Bluetooth: " +++ str e)) ;;;
    ret []).

Definition initialize_bluetooth : M (option BluetoothScanner) :=
  try (ret (Some BluetoothScanner_new))
  except (fun e =>
    emit (logger_error ("Erro na configuração Bluetooth: " +++ str e)) ;;;
    ret None).

(** A call to the I2C bus or to the OLED driver. *)
Definition display_call (e : Event) : M unit :=
  call e (fun h => display_answer env h e).

(** [setup_modules], returning the attributes it leaves on [self].  The
    source has one [try] around the four display calls; [self.display] is
    assigned after the second, so an error of [fill] or [show] leaves the
    attribute set, which the inner [try] renders here. *)
Definition setup_modules : M FlipperPiDevice :=
  disp <-
    (try (display_call board_I2C ;;;
          display_call (SSD1306_I2C 128 64) ;;;
          try (display_call (display_fill 0) ;;;
               display_call display_show ;;;
               ret (Some SSD1306))
          except (fun e =>
            emit (logger_warning ("Erro na configuração do display: " +++ str e)) ;;;
            ret (Some SSD1306)))
     except (fun e =>
       emit (logger_warning ("Erro na configuração do display: " +++ str e)) ;;;
       ret None)) ;;
  nfc <- initialize_nfc ;;
  bt <- initialize_bluetooth ;;
  ret {| display := disp; nfc_reader := nfc; bluetooth_scanner := bt |}.

Variable self : FlipperPiDevice.

Definition wifi_scan : M (list network) :=
  try (output <-
         call (subprocess_check_output ["iwlist"; "wlan0"; "scan"])
              (fun h => check_output_answer env h ["iwlist"; "wlan0"; "scan"]) ;;
       for_in (Py.split Py.newline output)
         (fun line networks =>
            if Py.contains "ESSID" line then
              essid <- index (Py.split Py.dquote line) 1 ;;
              ret (networks ++ [{| ssid := essid |}])
            else ret networks)
         [])
  except (fun e =>
    emit (logger_error ("Erro na varredura WiFi: " +++ str e)) ;;;
    ret []).

Definition advanced_bluetooth_scan : M (list device) :=
  match bluetooth_scanner self with
  | None => ret []
  | Some scanner =>
      devices <- discover scanner 8 ;;
      for_in devices
        (fun dev detailed_devices =>
           dev' <-
             (try (svcs <-
                     call (bluetooth_find_service (address dev))
                          (fun h => find_service_answer env h (address dev)) ;;
                   ret (set_services dev svcs))
              except (fun _ => ret (set_services dev []))) ;;
           ret (detailed_devices ++ [dev']))
        []
  end.

Definition update_display (wifi_nets : list network) (bt_devices : list device)
  : M unit :=
  try (match display self with
       | None => ret tt
       | Some _ =>
           display_call (display_fill 0) ;;;
           display_call
             (display_text ("WiFi: " +++ Py.str_of_nat (List.length wifi_nets)) 0 0 1) ;;;
           display_call
             (display_text ("BT: " +++ Py.str_of_nat (List.length bt_devices)) 0 10 1) ;;;
           display_call display_show
       end)
  except (fun e =>
    emit (logger_error ("Erro ao atualizar display: " +++ str e))).

Definition set_led (v : Level) : M unit :=
  call (GPIO_output LED_PIN v) (fun h => gpio_answer env h LED_PIN v).

(** The [try] block of [scan_loop]. *)
Definition scan_body : M unit :=
  set_led HIGH ;;;
  wifi_nets <- wifi_scan ;;
  bt_devices <- advanced_bluetooth_scan ;;
  emit (logger_info ("WiFi: " +++ Py.str_of_nat (List.length wifi_nets) +++ " redes")) ;;;
  emit (logger_info ("Bluetooth: " +++ Py.str_of_nat (List.length bt_devices) +++ " dispositivos")) ;;;
  update_display wifi_nets bt_devices ;;;
  emit (time_sleep 10) ;;;
  set_led LOW ;;;
  emit (time_sleep 2).

(** One turn of [while True]. *)
Definition scan_cycle : M unit :=
  try scan_body
  except (fun e =>
    emit (logger_error ("Erro no loop de varredura: " +++ str e)) ;;;
    emit (time_sleep 5)).

(** The first [n] turns of [while True], which has no exit. *)
Fixpoint scan_loop (n : nat) : M unit :=
  match n with
  | O => ret tt
  | S n' => scan_cycle ;;; scan_loop n'
  end.

End Device.


(** ** The loops read as plain functions *)

(** The parsing loop of [wifi_scan]: the networks collected so far, or the
    [IndexError] of the first line that has the marker and no quote. *)
Fixpoint parse_lines (lines : list string) (networks : list network)
  : exn + list network :=
  match lines with
  | [] => inr networks
  | line :: rest =>
      if Py.contains "ESSID" line then
        match nth_error (Py.split Py.dquote line) 1 with
        | Some essid => parse_lines rest (networks ++ [{| ssid := essid |}])
        | None => inl IndexError
        end
      else parse_lines rest networks
  end.

(** [line] is [pre], a double quote, [id], a double quote and [post]; the
    first quote of the line opens [id], and [id] holds no quote. *)
Definition quotes (line id : string) : Prop :=
  exists pre post,
    line = pre +++ Py.q +++ id +++ Py.q +++ post /\
    Py.has_char Py.dquote pre = false /\
    Py.has_char Py.dquote id = false.

Definition iwlist : list string := ["iwlist"; "wlan0"; "scan"].

(** The service lookups of [advanced_bluetooth_scan], one device after the
    other, each lookup seeing the lookups made before it. *)
Fixpoint enrich (env : Env) (h : list Event) (devices : list device)
  : list device :=
  match devices with
  | [] => []
  | d :: ds =>
      set_services d
        (match find_service_answer env h (address d) with
         | inl _ => []
         | inr svcs => svcs
         end)
      :: enrich env (h ++ [bluetooth_find_service (address d)]) ds
  end.

Definition lookups (devices : list device) : list Event :=
  map (fun d => bluetooth_find_service (address d)) devices.

Definition found (p : string * string) : device :=
  {| address := fst p; name := snd p; services := None |}.

(** The two count lines that [scan_loop] logs. *)
Definition count_logs (wifi_nets : list network) (bt_devices : list device)
  : list Event :=
  [logger_info ("WiFi: " +++ Py.str_of_nat (List.length wifi_nets) +++ " redes");
   logger_info ("Bluetooth: " +++ Py.str_of_nat (List.length bt_devices)
                +++ " dispositivos")].

(** The entry that the handler of [scan_loop] logs. *)
Definition loop_error (e : exn) : Event :=
  logger_error ("Erro no loop de varredura: " +++ str e).

(** Events of the steps inside a cycle: no GPIO write, no sleep, no NFC
    read, no entry of the loop's own handler. *)
Definition inner (e : Event) : Prop :=
  is_gpio e = false /\ sleep_of e = 0%Z /\ is_nfc_read e = false /\
  is_loop_error e = false.

(** The ways the Wi-Fi scan fails at history [h]: the tool call raises, or
    a line of its output has the marker and no quote to split on. *)
Inductive wifi_failure (env : Env) (h : list Event) : exn -> Prop :=
| tool_failure e :
    check_output_answer env h iwlist = inl e ->
    wifi_failure env h e
| parse_failure output line :
    check_output_answer env h iwlist = inr output ->
    In line (Py.split Py.newline output) ->
    Py.contains "ESSID" line = true ->
    List.length (Py.split Py.dquote line) < 2 ->
    wifi_failure env h IndexError.

Definition wifi_error (e : exn) : Event :=
  logger_error ("Erro na varredura WiFi: " +++ str e).

(** How the [try] block of a cycle can end: the write that lights the LED
    raises; the write that puts it out raises; both return.  [mid] holds
    the events of the scans, the logging and the display update. *)
Inductive cycle_outcome (env : Env) (h : list Event)
  : (exn + unit) * list Event -> Prop :=
| led_on_raises e :
    gpio_answer env h LED_PIN HIGH = inl e ->
    cycle_outcome env h (inl e, [GPIO_output LED_PIN HIGH])
| led_off_raises mid e :
    gpio_answer env h LED_PIN HIGH = inr tt ->
    Forall inner mid ->
    gpio_answer env (h ++ GPIO_output LED_PIN HIGH :: mid ++ [time_sleep 10])
      LED_PIN LOW = inl e ->
    cycle_outcome env h
      (inl e, GPIO_output LED_PIN HIGH :: mid ++
              [time_sleep 10; GPIO_output LED_PIN LOW])
| completes mid :
    gpio_answer env h LED_PIN HIGH = inr tt ->
    Forall inner mid ->
    gpio_answer env (h ++ GPIO_output LED_PIN HIGH :: mid ++ [time_sleep 10])
      LED_PIN LOW = inr tt ->
    cycle_outcome env h
      (inr tt, GPIO_output LED_PIN HIGH :: mid ++
               [time_sleep 10; GPIO_output LED_PIN LOW; time_sleep 2]).

(** ** Sample devices and environments *)

Module Sample.

Definition nl : string := String Py.newline EmptyString.

(** An output of [iwlist wlan0 scan] with two cells. *)
Definition two_cells : string :=
  "wlan0     Scan completed :" +++ nl +++
  "          Cell 01 - Address: 00:11:22:33:44:55" +++ nl +++
  "                    ESSID:" +++ Py.q +++ "Home" +++ Py.q +++ nl +++
  "                    Mode:Master" +++ nl +++
  "          Cell 02 - Address: 66:77:88:99:AA:BB" +++ nl +++
  "                    ESSID:" +++ Py.q +++ "Cafe" +++ Py.q +++ nl.

(** The same scan, the second cell printing its name without quotes. *)
Definition unquoted_cell : string :=
  "          Cell 01 - Address: 00:11:22:33:44:55" +++ nl +++
  "                    ESSID:" +++ Py.q +++ "Home" +++ Py.q +++ nl +++
  "          Cell 02 - Address: 66:77:88:99:AA:BB" +++ nl +++
  "                    ESSID:off/any" +++ nl.

Definition full : FlipperPiDevice :=
  {| display := Some SSD1306;
     nfc_reader := Some NFCReader_new;
     bluetooth_scanner := Some BluetoothScanner_new |}.

(** No display attribute, as after a failed display setup. *)
Definition headless : FlipperPiDevice :=
  {| display := None;
     nfc_reader := Some NFCReader_new;
     bluetooth_scanner := Some BluetoothScanner_new |}.

(** The Bluetooth attribute holding [None]. *)
Definition no_bluetooth : FlipperPiDevice :=
  {| display := Some SSD1306;
     nfc_reader := Some NFCReader_new;
     bluetooth_scanner := None |}.

(** Everything answers: two networks, one phone with one service. *)
Definition healthy : Env :=
  {| gpio_answer := fun _ _ _ => inr tt;
     check_output_answer := fun _ _ => inr two_cells;
     discover_devices_answer := fun _ => inr [("AA:BB", "Phone")];
     find_service_answer := fun _ _ => inr ["OBEX Object Push"];
     display_answer := fun _ _ => inr tt |}.

Definition oserror (msg : string) : exn := PyExn "OSError" msg.
Definition runtime_error (msg : string) : exn := PyExn "RuntimeError" msg.

(** The scanning tool is not installed. *)
Definition no_iwlist : Env :=
  {| gpio_answer := fun _ _ _ => inr tt;
     check_output_answer := fun _ _ =>
       inl (PyExn "FileNotFoundError" "No such file or directory: 'iwlist'");
     discover_devices_answer := fun _ => inr [("AA:BB", "Phone")];
     find_service_answer := fun _ _ => inr ["OBEX Object Push"];
     display_answer := fun _ _ => inr tt |}.

(** The tool prints a cell without a quoted name. *)
Definition odd_iwlist : Env :=
  {| gpio_answer := fun _ _ _ => inr tt;
     check_output_answer := fun _ _ => inr unquoted_cell;
     discover_devices_answer := fun _ => inr [("AA:BB", "Phone")];
     find_service_answer := fun _ _ => inr ["OBEX Object Push"];
     display_answer := fun _ _ => inr tt |}.

(** Discovery finds a phone; looking up its services raises. *)
Definition no_services : Env :=
  {| gpio_answer := fun _ _ _ => inr tt;
     check_output_answer := fun _ _ => inr two_cells;
     discover_devices_answer := fun _ => inr [("AA:BB", "Phone")];
     find_service_answer := fun _ _ => inl (oserror "Host is down");
     display_answer := fun _ _ => inr tt |}.

(** The Bluetooth adapter is missing: discovery raises. *)
Definition no_adapter : Env :=
  {| gpio_answer := fun _ _ _ => inr tt;
     check_output_answer := fun _ _ => inr two_cells;
     discover_devices_answer := fun _ => inl (oserror "No such device");
     find_service_answer := fun _ _ => inr [];
     display_answer := fun _ _ => inr tt |}.

(** The OLED does not answer on the bus. *)
Definition no_oled : Env :=
  {| gpio_answer := fun _ _ _ => inr tt;
     check_output_answer := fun _ _ => inr two_cells;
     discover_devices_answer := fun _ => inr [("AA:BB", "Phone")];
     find_service_answer := fun _ _ => inr [];
     display_answer := fun _ _ => inl (oserror "Remote I/O error") |}.

(** Writing the LED pin raises. *)
Definition no_gpio : Env :=
  {| gpio_answer := fun _ _ _ =>
       inl (runtime_error "The GPIO channel has not been set up as an OUTPUT");
     check_output_answer := fun _ _ => inr two_cells;
     discover_devices_answer := fun _ => inr [("AA:BB", "Phone")];
     find_service_answer := fun _ _ => inr [];
     display_answer := fun _ _ => inr tt |}.

End Sample.

(** ** Tactics *)

(** Lists of events are compared with appends nested to the right. *)
Ltac list_norm :=
  repeat first [ rewrite <- app_assoc | rewrite <- app_comm_cons | progress cbn [app] ].

(** ** The rest of the device: strings, construction, traces *)

(** [sep.join(segs)] *)
Fixpoint str_join (sep : string) (segs : list string) : string :=
  match segs with
  | [] => EmptyString
  | seg :: rest =>
      match rest with
      | [] => seg
      | _ :: _ => seg +++ sep +++ str_join sep rest
      end
  end.

(** [needle] occurs in [s]. *)
Definition substring_of (needle s : string) : Prop :=
  exists pre post, s = pre +++ needle +++ post.

(** The text of [s] before the first [c], all of [s] when it has none. *)
Fixpoint upto (c : ascii) (s : string) : string :=
  match s with
  | EmptyString => EmptyString
  | String d s' => if Ascii.eqb d c then EmptyString else String d (upto c s')
  end.

(** The text of [s] after the first [c], when it has one. *)
Fixpoint after (c : ascii) (s : string) : option string :=
  match s with
  | EmptyString => None
  | String d s' => if Ascii.eqb d c then Some s' else after c s'
  end.

(** The name a marker line gives: from its first double quote to the next
    one, or to the end of the line. *)
Definition first_quoted (line : string) : string :=
  match after Py.dquote line with
  | Some rest => upto Py.dquote rest
  | None => EmptyString
  end.

(** The lines of the tool's output that have the marker. *)
Definition marker_lines (output : string) : list string :=
  filter (Py.contains "ESSID") (Py.split Py.newline output).

(** The calls of [__init__] and [cleanup] that configure the GPIO header.
    [IN_PUD_UP] is [GPIO.IN] with [pull_up_down=GPIO.PUD_UP]. *)
Inductive Direction : Type := IN_PUD_UP | OUT.

Inductive GpioCall : Type :=
| GPIO_setmode_BCM
| GPIO_setwarnings (flag : bool)
| GPIO_setup (pin : Z) (d : Direction)
| GPIO_cleanup.

(** What the GPIO library answers to a configuration call, given the
    configuration calls made before it. *)
Definition GpioEnv : Type := list GpioCall -> GpioCall -> exn + unit.

Definition BUTTON_PINS : list Z := [17; 22; 27]%Z.

(** The configuration calls of [__init__], in the order of the source. *)
Definition init_calls : list GpioCall :=
  [GPIO_setmode_BCM; GPIO_setwarnings false] ++
  map (fun pin => GPIO_setup pin IN_PUD_UP) BUTTON_PINS ++
  [GPIO_setup LED_PIN OUT].

(** Calls made one after the other, outside any [try]: the first that
    raises ends the sequence. *)
Fixpoint configure (genv : GpioEnv) (done todo : list GpioCall)
  : option exn * list GpioCall :=
  match todo with
  | [] => (None, [])
  | c :: todo' =>
      match genv done c with
      | inl e => (Some e, [c])
      | inr _ =>
          match configure genv (done ++ [c]) todo' with
          | (r, made) => (r, c :: made)
          end
      end
  end.

(** An event of construction: a GPIO configuration call, or a call that
    [setup_modules] makes. *)
Inductive InitEvent : Type :=
| gpio_config (c : GpioCall)
| module_call (e : Event).

Definition is_gpio_config (e : InitEvent) : bool :=
  match e with gpio_config _ => true | module_call _ => false end.

(** [FlipperPiDevice.__init__]: the logging configuration, which makes no
    hardware call, is not recorded.  [setup_modules] starts on an empty
    history of module calls: the configuration calls before it are always
    the same six. *)
Definition FlipperPiDevice_init (genv : GpioEnv) (env : Env)
  : (exn + FlipperPiDevice) * list InitEvent :=
  match configure genv [] init_calls with
  | (Some e, made) => (inl e, map gpio_config made)
  | (None, made) =>
      match setup_modules env [] with
      | (r, ev) => (r, map gpio_config made ++ map module_call ev)
      end
  end.

Definition is_display_call (e : Event) : bool :=
  match e with
  | board_I2C | SSD1306_I2C _ _ | display_fill _
  | display_text _ _ _ _ | display_show => true
  | _ => false
  end.

Definition is_check_output (e : Event) : bool :=
  match e with subprocess_check_output _ => true | _ => false end.

Definition is_discover (e : Event) : bool :=
  match e with bluetooth_discover_devices _ _ => true | _ => false end.

(** The GPIO writes of [n] completed turns. *)
Fixpoint blinks (n : nat) : list Event :=
  match n with
  | O => []
  | S n' => GPIO_output LED_PIN HIGH :: GPIO_output LED_PIN LOW :: blinks n'
  end.

(** A GPIO driver whose writes always return. *)
Definition gpio_reliable (env : Env) : Prop :=
  forall h pin v, gpio_answer env h pin v = inr tt.


(** ** More sample environments *)

Module More.

(** The tool prints [output]; every other collaborator answers. *)
Definition printing (output : string) : Env :=
  {| gpio_answer := fun _ _ _ => inr tt;
     check_output_answer := fun _ _ => inr output;
     discover_devices_answer := fun _ => inr [("AA:BB", "Phone")];
     find_service_answer := fun _ _ => inr ["OBEX Object Push"];
     display_answer := fun _ _ => inr tt |}.

(** A hidden network, then a name whose closing quote is missing. *)
Definition hidden_and_open : string :=
  "                    ESSID:" +++ Py.q +++ Py.q +++ Sample.nl +++
  "                    ESSID:" +++ Py.q +++ "Home".

(** The two marker lines of [Sample.two_cells] among other lines, some of
    them with quotes. *)
Definition other_lines : string :=
  "                    Quality=70/70  Signal level=-30 dBm" +++ Sample.nl +++
  "                    ESSID:" +++ Py.q +++ "Home" +++ Py.q +++ Sample.nl +++
  "                    IE: " +++ Py.q +++ "WPA2" +++ Py.q +++ Sample.nl +++
  "                    ESSID:" +++ Py.q +++ "Cafe" +++ Py.q.

(** Two phones; the lookup of the first raises, the second has a service.
    The answer depends on the address looked up. *)
Definition two_phones : Env :=
  {| gpio_answer := fun _ _ _ => inr tt;
     check_output_answer := fun _ _ => inr Sample.two_cells;
     discover_devices_answer := fun _ =>
       inr [("AA:BB", "Phone"); ("CC:DD", "Watch")];
     find_service_answer := fun _ addr =>
       if String.eqb addr "AA:BB" then inl (Sample.oserror "Host is down")
       else inr ["Heart Rate"];
     display_answer := fun _ _ => inr tt |}.

(** The OLED answers until the frame is to be shown. *)
Definition show_fails : Env :=
  {| gpio_answer := fun _ _ _ => inr tt;
     check_output_answer := fun _ _ => inr Sample.two_cells;
     discover_devices_answer := fun _ => inr [("AA:BB", "Phone")];
     find_service_answer := fun _ _ => inr [];
     display_answer := fun _ e =>
       match e with
       | display_show => inl (Sample.oserror "Remote I/O error")
       | _ => inr tt
       end |}.

(** The LED can be lit and cannot be put out. *)
Definition stuck_on : Env :=
  {| gpio_answer := fun _ _ v =>
       match v with
       | HIGH => inr tt
       | LOW => inl (Sample.runtime_error "GPIO write failed")
       end;
     check_output_answer := fun _ _ => inr Sample.two_cells;
     discover_devices_answer := fun _ => inr [("AA:BB", "Phone")];
     find_service_answer := fun _ _ => inr [];
     display_answer := fun _ _ => inr tt |}.

(** Everything but the GPIO writes fails. *)
Definition only_gpio : Env :=
  {| gpio_answer := fun _ _ _ => inr tt;
     check_output_answer := fun _ _ => inl (Sample.oserror "iwlist failed");
     discover_devices_answer := fun _ => inl (Sample.oserror "No such device");
     find_service_answer := fun _ _ => inl (Sample.oserror "Host is down");
     display_answer := fun _ _ => inl (Sample.oserror "Remote I/O error") |}.

(** A GPIO library that answers every configuration call. *)
Definition gpio_ready : GpioEnv := fun _ _ => inr tt.

(** A GPIO library that refuses to set up pin 27. *)
Definition pin27_busy : GpioEnv :=
  fun _ c =>
    match c with
    | GPIO_setup 27 _ => inl (Sample.runtime_error "pin 27 is busy")
    | _ => inr tt
    end.

End More.

(** Entries written through the logger ([print] is not one). *)
Definition is_logger (e : Event) : bool :=
  match e with
  | logger_info _ | logger_warning _ | logger_error _ => true
  | _ => false
  end.

(** The four calls of [setup_modules] for the display, in order. *)
Definition setup_frame : list Event :=
  [board_I2C; SSD1306_I2C 128 64; display_fill 0; display_show].


Definition setup_warning (e : exn) : Event :=
  logger_warning ("Erro na configuração do display: " +++ str e).

(** The device [setup_modules] leaves, but for the display attribute. *)
Definition equipped (disp : option Display) : FlipperPiDevice :=
  {| display := disp;
     nfc_reader := Some NFCReader_new;
     bluetooth_scanner := Some BluetoothScanner_new |}.
(** ** Reasoning about computations *)

Lemma bind_inl {A B} (m : M A) (k : A -> M B) h e ev :
  m h = (inl e, ev) -> bind m k h = (inl e, ev).
Proof. intros Hm. unfold bind. rewrite Hm. reflexivity. Qed.

Lemma bind_inr {A B} (m : M A) (k : A -> M B) h a ev :
  m h = (inr a, ev) ->
  bind m k h = (fst (k a (h ++ ev)), ev ++ snd (k a (h ++ ev))).
Proof.
  intros Hm. unfold bind. rewrite Hm.
  destruct (k a (h ++ ev)); reflexivity.
Qed.

Lemma try_inr {A} (m : M A) handler h a ev :
  m h = (inr a, ev) -> try_except m handler h = (inr a, ev).
Proof. intros Hm. unfold try_except. rewrite Hm. reflexivity. Qed.

Lemma try_inl {A} (m : M A) handler h e ev :
  m h = (inl e, ev) ->
  try_except m handler h =
    (fst (handler e (h ++ ev)), ev ++ snd (handler e (h ++ ev))).
Proof.
  intros Hm. unfold try_except. rewrite Hm.
  destruct (handler e (h ++ ev)); reflexivity.
Qed.

Lemma total_ret {A} (a : A) : total (ret a).
Proof. intros h. exists a. reflexivity. Qed.

Lemma total_emit e : total (emit e).
Proof. intros h. exists tt. reflexivity. Qed.

Lemma total_bind {A B} (m : M A) (k : A -> M B) :
  total m -> (forall a, total (k a)) -> total (bind m k).
Proof.
  intros Hm Hk h. destruct (Hm h) as [a Ha].
  destruct (m h) as [r ev] eqn:E. simpl in Ha. subst r.
  rewrite (bind_inr _ _ _ _ _ E). simpl. apply Hk.
Qed.

Lemma total_try {A} (m : M A) handler :
  (forall e, total (handler e)) -> total (try_except m handler).
Proof.
  intros Hh h. destruct (m h) as [[e | a] ev] eqn:E.
  - rewrite (try_inl _ _ _ _ _ E). simpl. apply Hh.
  - rewrite (try_inr _ _ _ _ _ E). exists a. reflexivity.
Qed.

Lemma emits_ret {A} P (a : A) : emits P (ret a).
Proof. intros h. constructor. Qed.

Lemma emits_raise {A} P e : emits P (@raise A e).
Proof. intros h. constructor. Qed.

Lemma emits_emit (P : Event -> Prop) e : P e -> emits P (emit e).
Proof. intros He h. simpl. auto. Qed.

Lemma emits_call {A} (P : Event -> Prop) e (ans : list Event -> exn + A) :
  P e -> emits P (call e ans).
Proof. intros He h. simpl. auto. Qed.

Lemma emits_bind {A B} P (m : M A) (k : A -> M B) :
  emits P m -> (forall a, emits P (k a)) -> emits P (bind m k).
Proof.
  intros Hm Hk h. specialize (Hm h).
  destruct (m h) as [[e | a] ev] eqn:E.
  - rewrite (bind_inl _ _ _ _ _ E). exact Hm.
  - rewrite (bind_inr _ _ _ _ _ E). simpl in *.
    apply Forall_app. split; [exact Hm | apply Hk].
Qed.

Lemma emits_try {A} P (m : M A) handler :
  emits P m -> (forall e, emits P (handler e)) -> emits P (try_except m handler).
Proof.
  intros Hm Hh h. specialize (Hm h).
  destruct (m h) as [[e | a] ev] eqn:E.
  - rewrite (try_inl _ _ _ _ _ E). simpl in *.
    apply Forall_app. split; [exact Hm | apply Hh].
  - rewrite (try_inr _ _ _ _ _ E). exact Hm.
Qed.

Lemma count_app p (a b : list Event) : count p (a ++ b) = count p a + count p b.
Proof. unfold count. rewrite filter_app, length_app. reflexivity. Qed.

Lemma count_none p (ev : list Event) :
  Forall (fun e => p e = false) ev -> count p ev = 0.
Proof.
  unfold count. induction 1 as [| e ev He _ IH]; simpl.
  - reflexivity.
  - rewrite He. exact IH.
Qed.

Lemma slept_app (a b : list Event) : (slept (a ++ b) = slept a + slept b)%Z.
Proof.
  unfold slept. induction a as [| e a IH]; simpl.
  - reflexivity.
  - rewrite IH. lia.
Qed.

Lemma slept_none (ev : list Event) :
  Forall (fun e => sleep_of e = 0%Z) ev -> slept ev = 0%Z.
Proof.
  unfold slept. induction 1 as [| e ev He _ IH]; simpl.
  - reflexivity.
  - rewrite He, IH. reflexivity.
Qed.

(** ** Python's [split] and [in] *)

Lemma split_until c pre rest :
  Py.has_char c pre = false ->
  Py.split c (pre +++ String c rest) = pre :: Py.split c rest.
Proof.
  induction pre as [| d pre IH]; simpl; intros H.
  - rewrite Ascii.eqb_refl. reflexivity.
  - destruct (Ascii.eqb d c); [discriminate |].
    rewrite (IH H). reflexivity.
Qed.

Lemma split_quotes line id :
  quotes line id -> nth_error (Py.split Py.dquote line) 1 = Some id.
Proof.
  intros (pre & post & -> & Hpre & Hid).
  unfold Py.q. simpl String.append.
  rewrite (split_until _ _ _ Hpre).
  rewrite (split_until _ _ _ Hid). reflexivity.
Qed.

(** ** The Wi-Fi scan *)

Lemma parse_lines_unquoted lines line :
  In line lines ->
  Py.contains "ESSID" line = true ->
  List.length (Py.split Py.dquote line) < 2 ->
  forall networks, parse_lines lines networks = inl IndexError.
Proof.
  intros Hin Hm Hlen.
  induction lines as [| l lines IH]; [destruct Hin |].
  intros networks. cbn [parse_lines].
  destruct (Py.contains "ESSID" l) eqn:El.
  - destruct (nth_error (Py.split Py.dquote l) 1) as [essid |] eqn:En;
      [| reflexivity].
    destruct Hin as [<- | Hin]; [| apply IH; exact Hin].
    assert (Hn : nth_error (Py.split Py.dquote l) 1 = None)
      by (apply nth_error_None; lia).
    congruence.
  - destruct Hin as [<- | Hin]; [congruence | apply IH; exact Hin].
Qed.

Lemma parse_lines_quoted lines ids :
  Forall2 quotes (filter (Py.contains "ESSID") lines) ids ->
  forall networks,
    parse_lines lines networks = inr (networks ++ map Build_network ids).
Proof.
  revert ids.
  induction lines as [| l lines IH]; intros ids H networks;
    cbn [parse_lines filter] in *.
  - inversion H. rewrite app_nil_r. reflexivity.
  - destruct (Py.contains "ESSID" l).
    + inversion H as [| ? id ? ids' Hq Hrest]; subst.
      rewrite (split_quotes _ _ Hq), (IH _ Hrest). cbn [map].
      rewrite <- app_assoc. reflexivity.
    + apply IH. exact H.
Qed.

Section Scans.

Variable env : Env.
Variable self : FlipperPiDevice.

Lemma parse_loop lines : forall networks h,
  for_in lines
    (fun line networks =>
       if Py.contains "ESSID" line then
         bind (index (Py.split Py.dquote line) 1)
              (fun essid => ret (networks ++ [{| ssid := essid |}]))
       else ret networks)
    networks h
  = (parse_lines lines networks, []).
Proof.
  induction lines as [| l lines IH]; intros networks h;
    cbn [for_in parse_lines].
  - reflexivity.
  - destruct (Py.contains "ESSID" l).
    + unfold bind at 1. unfold index, bind.
      destruct (nth_error (Py.split Py.dquote l) 1); cbn [ret raise].
      * rewrite IH. reflexivity.
      * reflexivity.
    + unfold bind, ret. rewrite IH. reflexivity.
Qed.

(** What [wifi_scan] does, case by case. *)
Lemma wifi_scan_run h :
  wifi_scan env h =
    match check_output_answer env h iwlist with
    | inl e =>
        (inr [], [subprocess_check_output iwlist;
                  logger_error ("Erro na varredura WiFi: " +++ str e)])
    | inr output =>
        match parse_lines (Py.split Py.newline output) [] with
        | inl e =>
            (inr [], [subprocess_check_output iwlist;
                      logger_error ("Erro na varredura WiFi: " +++ str e)])
        | inr networks => (inr networks, [subprocess_check_output iwlist])
        end
    end.
Proof.
  unfold wifi_scan, try_except, bind at 1, call. fold iwlist.
  destruct (check_output_answer env h iwlist) as [e | output]; simpl.
  - reflexivity.
  - rewrite parse_loop.
    destruct (parse_lines (Py.split Py.newline output) []); reflexivity.
Qed.

Lemma wifi_scan_total : total (wifi_scan env).
Proof.
  intros h. rewrite wifi_scan_run.
  destruct (check_output_answer env h iwlist) as [e | output]; simpl; eauto.
  destruct (parse_lines (Py.split Py.newline output) []); simpl; eauto.
Qed.

(** *** The Bluetooth scan *)

Lemma discover_loop nearby : forall devices h,
  for_in nearby
    (fun '(addr, nm) devices =>
       ret (devices ++ [{| address := addr; name := nm; services := None |}]))
    devices h
  = (inr (devices ++ map found nearby), []).
Proof.
  induction nearby as [| [addr nm] nearby IH]; intros devices h;
    cbn [for_in map].
  - rewrite app_nil_r. reflexivity.
  - unfold bind, ret. rewrite IH. rewrite <- app_assoc. reflexivity.
Qed.

Lemma discover_run sc duration h :
  discover env sc duration h =
    match discover_devices_answer env h with
    | inl e =>
        (inr [], [bluetooth_discover_devices duration true;
                  print ("Erro na varredura Bluetooth: " +++ str e)])
    | inr nearby =>
        (inr (map found nearby), [bluetooth_discover_devices duration true])
    end.
Proof.
  unfold discover, try_except, bind at 1, call.
  destruct (discover_devices_answer env h) as [e | nearby]; simpl.
  - reflexivity.
  - rewrite discover_loop. reflexivity.
Qed.

Lemma enrich_loop devices : forall detailed h,
  for_in devices
    (fun dev detailed_devices =>
       bind
         (try_except
            (bind (call (bluetooth_find_service (address dev))
                        (fun h => find_service_answer env h (address dev)))
                  (fun svcs => ret (set_services dev svcs)))
            (fun _ => ret (set_services dev [])))
         (fun dev' => ret (detailed_devices ++ [dev'])))
    detailed h
  = (inr (detailed ++ enrich env h devices), lookups devices).
Proof.
  induction devices as [| d devices IH]; intros detailed h;
    cbn [for_in enrich lookups map].
  - rewrite app_nil_r. reflexivity.
  - unfold bind at 1. unfold bind at 1. unfold try_except, bind at 1, call, ret.
    destruct (find_service_answer env h (address d)) as [e | svcs];
      cbn [fst snd app]; rewrite IH; rewrite <- app_assoc; reflexivity.
Qed.

(** What [advanced_bluetooth_scan] does, case by case. *)
Lemma advanced_bluetooth_scan_run h :
  advanced_bluetooth_scan env self h =
    match bluetooth_scanner self with
    | None => (inr [], [])
    | Some _ =>
        match discover_devices_answer env h with
        | inl e =>
            (inr [], [bluetooth_discover_devices 8 true;
                      print ("Erro na varredura Bluetooth: " +++ str e)])
        | inr nearby =>
            (inr (enrich env (h ++ [bluetooth_discover_devices 8 true])
                    (map found nearby)),
             bluetooth_discover_devices 8 true :: lookups (map found nearby))
        end
    end.
Proof.
  unfold advanced_bluetooth_scan.
  destruct (bluetooth_scanner self) as [sc |]; [| reflexivity].
  unfold bind at 1. rewrite discover_run.
  destruct (discover_devices_answer env h) as [e | nearby].
  - reflexivity.
  - rewrite enrich_loop. reflexivity.
Qed.

Lemma advanced_bluetooth_scan_total : total (advanced_bluetooth_scan env self).
Proof.
  intros h. rewrite advanced_bluetooth_scan_run.
  destruct (bluetooth_scanner self); simpl; eauto.
  destruct (discover_devices_answer env h); simpl; eauto.
Qed.

(** The [i]-th device after enrichment: the same device, with the answer
    of its own lookup, or no service when that lookup raised. *)
Lemma enrich_nth devices : forall h i d,
  nth_error devices i = Some d ->
  nth_error (enrich env h devices) i =
    Some (set_services d
            (match find_service_answer env
                     (h ++ lookups (firstn i devices)) (address d) with
             | inl _ => []
             | inr svcs => svcs
             end)).
Proof.
  induction devices as [| d0 devices IH]; intros h i d Hi.
  - destruct i; discriminate.
  - destruct i as [| i]; cbn [nth_error enrich firstn lookups map] in *.
    + injection Hi as ->. rewrite app_nil_r. reflexivity.
    + rewrite (IH _ _ _ Hi). rewrite <- app_assoc. reflexivity.
Qed.

End Scans.

(** ** The display *)

Section Loop.

Variable env : Env.
Variable self : FlipperPiDevice.

Lemma update_display_total wifi_nets bt_devices :
  total (update_display env self wifi_nets bt_devices).
Proof. apply total_try. intros e. apply total_emit. Qed.

Lemma update_display_returns wifi_nets bt_devices h :
  fst (update_display env self wifi_nets bt_devices h) = inr tt.
Proof.
  destruct (update_display_total wifi_nets bt_devices h) as [[] H]. exact H.
Qed.

Lemma wifi_scan_inner : emits inner (wifi_scan env).
Proof.
  intros h. rewrite wifi_scan_run.
  destruct (check_output_answer env h iwlist) as [e | output]; simpl.
  - repeat constructor.
  - destruct (parse_lines (Py.split Py.newline output) []); simpl;
      repeat constructor.
Qed.

Lemma advanced_bluetooth_scan_inner : emits inner (advanced_bluetooth_scan env self).
Proof.
  intros h. rewrite advanced_bluetooth_scan_run.
  destruct (bluetooth_scanner self); simpl; [| constructor].
  destruct (discover_devices_answer env h) as [e | nearby]; simpl.
  - repeat constructor.
  - constructor; [repeat constructor |].
    unfold lookups. rewrite map_map. apply Forall_map.
    apply Forall_forall. intros p _. repeat constructor.
Qed.

Lemma update_display_inner wifi_nets bt_devices :
  emits inner (update_display env self wifi_nets bt_devices).
Proof.
  unfold update_display. apply emits_try.
  - destruct (display self); [| apply emits_ret].
    repeat (apply emits_bind; [| intros _]);
      apply emits_call; repeat constructor.
  - intros e. apply emits_emit. repeat constructor.
Qed.

(** *** One cycle *)

(** The [try] block of the loop, step by step: the steps between the two
    GPIO writes always return, so the block raises only where a GPIO
    write raises. *)
Lemma scan_body_run h :
  exists wifi_nets ev_w bt_devices ev_b ev_d,
    let h1 := h ++ [GPIO_output LED_PIN HIGH] in
    let pre :=
      GPIO_output LED_PIN HIGH ::
      ev_w ++ ev_b ++ count_logs wifi_nets bt_devices ++ ev_d ++ [time_sleep 10] in
    wifi_scan env h1 = (inr wifi_nets, ev_w) /\
    advanced_bluetooth_scan env self (h1 ++ ev_w) = (inr bt_devices, ev_b) /\
    update_display env self wifi_nets bt_devices
      (h1 ++ ev_w ++ ev_b ++ count_logs wifi_nets bt_devices) = (inr tt, ev_d) /\
    scan_body env self h =
      match gpio_answer env h LED_PIN HIGH with
      | inl e => (inl e, [GPIO_output LED_PIN HIGH])
      | inr _ =>
          match gpio_answer env (h ++ pre) LED_PIN LOW with
          | inl e => (inl e, pre ++ [GPIO_output LED_PIN LOW])
          | inr _ => (inr tt, pre ++ [GPIO_output LED_PIN LOW; time_sleep 2])
          end
      end.
Proof.
  set (h1 := h ++ [GPIO_output LED_PIN HIGH]).
  destruct (wifi_scan_total env h1) as [wifi_nets Hw].
  destruct (wifi_scan env h1) as [rw ev_w] eqn:Ew. simpl in Hw. subst rw.
  destruct (advanced_bluetooth_scan_total env self (h1 ++ ev_w)) as [bt_devices Hb].
  destruct (advanced_bluetooth_scan env self (h1 ++ ev_w)) as [rb ev_b] eqn:Eb.
  simpl in Hb. subst rb.
  pose proof (update_display_returns wifi_nets bt_devices
                (h1 ++ ev_w ++ ev_b ++ count_logs wifi_nets bt_devices)) as Hd.
  destruct (update_display env self wifi_nets bt_devices
              (h1 ++ ev_w ++ ev_b ++ count_logs wifi_nets bt_devices))
    as [rd ev_d] eqn:Ed.
  simpl in Hd. subst rd.
  exists wifi_nets, ev_w, bt_devices, ev_b, ev_d. cbv zeta.
  split; [exact Ew |]. split; [exact Eb |]. split; [exact Ed |].
  unfold scan_body, set_led. unfold bind at 1, call.
  destruct (gpio_answer env h LED_PIN HIGH) as [e | u]; [reflexivity |].
  fold h1. unfold bind at 1. rewrite Ew.
  unfold bind at 1. rewrite Eb.
  unfold bind at 1, emit. unfold bind at 1.
  unfold bind at 1.
  replace (((((h1 ++ ev_w) ++ ev_b) ++
              [logger_info ("WiFi: " +++ Py.str_of_nat (Datatypes.length wifi_nets)
                            +++ " redes")]) ++
             [logger_info ("Bluetooth: " +++ Py.str_of_nat (Datatypes.length bt_devices)
                           +++ " dispositivos")]))
    with (h1 ++ ev_w ++ ev_b ++ count_logs wifi_nets bt_devices)
    by (unfold count_logs; rewrite <- !app_assoc; reflexivity).
  rewrite Ed.
  unfold bind at 1. unfold bind, call.
  match goal with
  | |- context [gpio_answer env ?hh LED_PIN LOW] =>
      replace hh with
        (h ++ GPIO_output LED_PIN HIGH ::
           ev_w ++ ev_b ++ count_logs wifi_nets bt_devices ++ ev_d ++ [time_sleep 10])
        by (unfold h1, count_logs; rewrite <- ?app_assoc; reflexivity)
  end.
  destruct (gpio_answer env _ LED_PIN LOW) as [e | u'];
    unfold count_logs; list_norm; reflexivity.
Qed.

End Loop.

Section Cycles.

Variable env : Env.
Variable self : FlipperPiDevice.

Lemma scan_cycle_run h :
  scan_cycle env self h =
    match scan_body env self h with
    | (inl e, ev) => (inr tt, ev ++ [loop_error e; time_sleep 5])
    | (inr u, ev) => (inr u, ev)
    end.
Proof.
  unfold scan_cycle, try_except.
  destruct (scan_body env self h) as [[e | u] ev]; reflexivity.
Qed.

Lemma scan_cycle_returns h : fst (scan_cycle env self h) = inr tt.
Proof.
  rewrite scan_cycle_run.
  destruct (scan_body env self h) as [[e | []] ev]; reflexivity.
Qed.

Lemma scan_cycle_eq h :
  scan_cycle env self h = (inr tt, events (scan_cycle env self) h).
Proof.
  unfold events. rewrite <- (scan_cycle_returns h).
  destruct (scan_cycle env self h); reflexivity.
Qed.

(** Every cycle opens with the write that lights the LED. *)
Lemma scan_cycle_head h :
  exists rest, events (scan_cycle env self) h = GPIO_output LED_PIN HIGH :: rest.
Proof.
  unfold events. rewrite scan_cycle_run.
  destruct (scan_body_run env self h)
    as (wn & ev_w & bd & ev_b & ev_d & _ & _ & _ & ->).
  destruct (gpio_answer env h LED_PIN HIGH); [simpl; eauto |].
  destruct (gpio_answer env _ LED_PIN LOW); simpl; eauto.
Qed.

(** *** The loop *)

Lemma scan_loop_step n h :
  scan_loop env self (S n) h =
    (fst (scan_loop env self n (h ++ events (scan_cycle env self) h)),
     events (scan_cycle env self) h ++
     snd (scan_loop env self n (h ++ events (scan_cycle env self) h))).
Proof.
  cbn [scan_loop].
  exact (bind_inr (scan_cycle env self) (fun _ => scan_loop env self n)
           h tt _ (scan_cycle_eq h)).
Qed.

Lemma scan_loop_returns n : forall h, fst (scan_loop env self n h) = inr tt.
Proof.
  induction n as [| n IH]; intros h.
  - reflexivity.
  - rewrite scan_loop_step. apply IH.
Qed.

Lemma scan_loop_events_S n h :
  events (scan_loop env self (S n)) h =
    events (scan_cycle env self) h ++
    events (scan_loop env self n) (h ++ events (scan_cycle env self) h).
Proof. unfold events at 1. rewrite scan_loop_step. reflexivity. Qed.

(** The loop after [S n] turns is the loop after [n] turns and one more
    cycle: no turn is the last. *)
Lemma scan_loop_next n : forall h,
  events (scan_loop env self (S n)) h =
    events (scan_loop env self n) h ++
    events (scan_cycle env self) (h ++ events (scan_loop env self n) h).
Proof.
  induction n as [| n IH]; intros h.
  - rewrite scan_loop_events_S. unfold events at 2 3. cbn [scan_loop ret snd].
    rewrite !app_nil_r. reflexivity.
  - rewrite (scan_loop_events_S (S n) h).
    rewrite (IH (h ++ events (scan_cycle env self) h)).
    rewrite (scan_loop_events_S n h).
    rewrite <- !app_assoc. reflexivity.
Qed.

End Cycles.

(** ** The Wi-Fi scan: what is extracted, and what a failure leaves *)

Lemma wifi_failure_run env h e :
  wifi_failure env h e ->
  wifi_scan env h = (inr [], [subprocess_check_output iwlist; wifi_error e]).
Proof.
  intros [e' He | output line Hout Hin Hm Hlen].
  - rewrite wifi_scan_run, He. reflexivity.
  - rewrite wifi_scan_run, Hout.
    rewrite (parse_lines_unquoted _ _ Hin Hm Hlen). reflexivity.
Qed.

(** C5: from the lines of the tool's output that contain the marker ESSID,
    each holding a quoted identifier, [wifi_scan] returns those identifiers
    in line order, one network each, and logs nothing. *)
Theorem wifi_scan_extracts_essids env h output ids :
  check_output_answer env h iwlist = inr output ->
  Forall2 quotes (filter (Py.contains "ESSID") (Py.split Py.newline output)) ids ->
  wifi_scan env h = (inr (map Build_network ids), [subprocess_check_output iwlist]).
Proof.
  intros Hout Hq. rewrite wifi_scan_run, Hout.
  rewrite (parse_lines_quoted _ _ Hq). reflexivity.
Qed.

(** The scan of the two cells Home and Cafe. *)
Lemma wifi_scan_home_cafe :
  wifi_scan Sample.healthy [] =
    (inr [{| ssid := "Home" |}; {| ssid := "Cafe" |}],
     [subprocess_check_output iwlist]).
Proof.
  apply (wifi_scan_extracts_essids Sample.healthy [] Sample.two_cells
           ["Home"; "Cafe"]).
  - reflexivity.
  - vm_compute.
    constructor; [| constructor; [| constructor]].
    + exists "                    ESSID:", "". repeat split; reflexivity.
    + exists "                    ESSID:", "". repeat split; reflexivity.
Defined.

(** C10: when the tool's output has a line with the marker ESSID and fewer
    than two segments around double quotes, [wifi_scan] returns the empty
    list, whatever the lines before it held, and logs the index error. *)
Theorem wifi_scan_discards_partial env h output line :
  check_output_answer env h iwlist = inr output ->
  In line (Py.split Py.newline output) ->
  Py.contains "ESSID" line = true ->
  List.length (Py.split Py.dquote line) < 2 ->
  wifi_scan env h =
    (inr [], [subprocess_check_output iwlist;
              logger_error "Erro na varredura WiFi: list index out of range"]).
Proof.
  intros Hout Hin Hm Hlen. rewrite wifi_scan_run, Hout.
  rewrite (parse_lines_unquoted _ _ Hin Hm Hlen). reflexivity.
Qed.

(** A cell named Home followed by a cell printed without quotes: Home
    is parsed first and is not returned. *)
Lemma wifi_scan_unquoted_cell :
  parse_lines (firstn 2 (Py.split Py.newline Sample.unquoted_cell)) [] =
    inr [{| ssid := "Home" |}] /\
  wifi_scan Sample.odd_iwlist [] =
    (inr [], [subprocess_check_output iwlist;
              logger_error "Erro na varredura WiFi: list index out of range"]).
Proof.
  split; [reflexivity |].
  apply (wifi_scan_discards_partial Sample.odd_iwlist [] Sample.unquoted_cell
           "                    ESSID:off/any").
  - reflexivity.
  - vm_compute. auto.
  - reflexivity.
  - vm_compute. lia.
Defined.


(** C3: a Wi-Fi scan that fails, the tool raising or a line not parsing,
    returns the empty list and logs the error, raising nothing; in a cycle
    the Bluetooth scan runs next, on the history the failed scan left, and
    the cycle goes on to log a count of 0 networks. *)
Theorem wifi_failure_absorbed env self h e :
  wifi_failure env h e ->
  wifi_scan env h = (inr [], [subprocess_check_output iwlist; wifi_error e]) /\
  forall h0,
    h = h0 ++ [GPIO_output LED_PIN HIGH] ->
    gpio_answer env h0 LED_PIN HIGH = inr tt ->
    exists bt_devices ev_b rest,
      advanced_bluetooth_scan env self
        (h ++ [subprocess_check_output iwlist; wifi_error e])
      = (inr bt_devices, ev_b) /\
      events (scan_cycle env self) h0 =
        GPIO_output LED_PIN HIGH :: subprocess_check_output iwlist ::
        wifi_error e :: ev_b ++ logger_info "WiFi: 0 redes" :: rest.
Proof.
  intros Hf. pose proof (wifi_failure_run _ _ _ Hf) as Hw.
  split; [exact Hw |].
  intros h0 -> Hhigh.
  destruct (scan_body_run env self h0)
    as (wn & ev_w & bd & ev_b & ev_d & Ew & Eb & _ & Hbody).
  cbv zeta in *. rewrite Hw in Ew. injection Ew as <- <-.
  exists bd, ev_b. unfold events. rewrite scan_cycle_run, Hbody, Hhigh.
  destruct (gpio_answer env _ LED_PIN LOW);
    eexists; (split; [exact Eb |]); cbn [snd]; unfold count_logs;
    list_norm; reflexivity.
Qed.

(** A cycle in which the scanning tool is not installed. *)
Lemma wifi_failure_no_iwlist :
  let e := PyExn "FileNotFoundError" "No such file or directory: 'iwlist'" in
  wifi_scan Sample.no_iwlist [GPIO_output LED_PIN HIGH] =
    (inr [], [subprocess_check_output iwlist; wifi_error e]) /\
  exists bt_devices ev_b rest,
    advanced_bluetooth_scan Sample.no_iwlist Sample.full
      [GPIO_output LED_PIN HIGH; subprocess_check_output iwlist; wifi_error e]
    = (inr bt_devices, ev_b) /\
    events (scan_cycle Sample.no_iwlist Sample.full) [] =
      GPIO_output LED_PIN HIGH :: subprocess_check_output iwlist ::
      wifi_error e :: ev_b ++ logger_info "WiFi: 0 redes" :: rest.
Proof.
  intros e.
  destruct (wifi_failure_absorbed Sample.no_iwlist Sample.full
              [GPIO_output LED_PIN HIGH] e) as [Hw Hc].
  - apply tool_failure. reflexivity.
  - split; [exact Hw |].
    apply (Hc []); reflexivity.
Defined.

(** ** The Bluetooth scan: lookups that fail, discovery that fails *)

(** C4: every discovered device is in the output of
    [advanced_bluetooth_scan], in discovery order, with its address and
    name; a device whose service lookup raises is there with the empty
    service list; the scan itself returns. *)
Theorem failed_lookup_keeps_device env self h sc nearby :
  bluetooth_scanner self = Some sc ->
  discover_devices_answer env h = inr nearby ->
  exists detailed,
    result (advanced_bluetooth_scan env self) h = inr detailed /\
    map (fun d => (address d, name d)) detailed = nearby /\
    forall i addr nm e,
      nth_error nearby i = Some (addr, nm) ->
      find_service_answer env
        (h ++ bluetooth_discover_devices 8 true ::
           map (fun p => bluetooth_find_service (fst p)) (firstn i nearby))
        addr = inl e ->
      nth_error detailed i =
        Some {| address := addr; name := nm; services := Some [] |}.
Proof.
  intros Hsc Hd.
  exists (enrich env (h ++ [bluetooth_discover_devices 8 true]) (map found nearby)).
  unfold result. rewrite advanced_bluetooth_scan_run, Hsc, Hd. cbn [fst].
  split; [reflexivity |]. split.
  - clear Hd. generalize (h ++ [bluetooth_discover_devices 8 true]).
    induction nearby as [| [a n] nearby IH]; intros h'; cbn [map enrich].
    + reflexivity.
    + rewrite IH. reflexivity.
  - intros i addr nm e Hi He.
    rewrite (enrich_nth env (map found nearby) _ i (found (addr, nm))).
    + unfold lookups. rewrite firstn_map, map_map.
      rewrite <- app_assoc. cbn [app found address fst].
      rewrite He. reflexivity.
    + rewrite nth_error_map, Hi. reflexivity.
Qed.

(** Discovery returns the phone AA:BB and the lookup of its services
    raises: the phone is returned with no service. *)
Lemma failed_lookup_phone :
  result (advanced_bluetooth_scan Sample.no_services Sample.full) [] =
    inr [{| address := "AA:BB"; name := "Phone"; services := Some [] |}].
Proof.
  destruct (failed_lookup_keeps_device Sample.no_services Sample.full []
              BluetoothScanner_new [("AA:BB", "Phone")] eq_refl eq_refl)
    as (detailed & Hr & Hmap & Hnth).
  rewrite Hr. f_equal.
  pose proof (Hnth 0 "AA:BB" "Phone" (Sample.oserror "Host is down")
                eq_refl eq_refl) as H0.
  destruct detailed as [| d [| d' detailed]]; try discriminate.
  cbn [nth_error] in H0. injection H0 as ->. reflexivity.
Defined.

(** C9: when the scanner attribute holds [None], or when the discovery call
    raises, [advanced_bluetooth_scan] returns the empty list and raises
    nothing. *)
Theorem failed_discovery_is_empty env self h :
  bluetooth_scanner self = None \/
  (exists e, discover_devices_answer env h = inl e) ->
  result (advanced_bluetooth_scan env self) h = inr [].
Proof.
  intros H. unfold result. rewrite advanced_bluetooth_scan_run.
  destruct (bluetooth_scanner self) as [sc |]; [| reflexivity].
  destruct H as [H | [e He]]; [discriminate |].
  rewrite He. reflexivity.
Qed.

(** No scanner on the device; and a scanner whose adapter is missing, where
    the error is printed. *)
Lemma failed_discovery_samples :
  result (advanced_bluetooth_scan Sample.healthy Sample.no_bluetooth) [] = inr [] /\
  result (advanced_bluetooth_scan Sample.no_adapter Sample.full) [] = inr [] /\
  events (advanced_bluetooth_scan Sample.no_adapter Sample.full) [] =
    [bluetooth_discover_devices 8 true;
     print "Erro na varredura Bluetooth: No such device"].
Proof.
  split; [| split].
  - apply (failed_discovery_is_empty Sample.healthy Sample.no_bluetooth []).
    left. reflexivity.
  - apply (failed_discovery_is_empty Sample.no_adapter Sample.full []).
    right. exists (Sample.oserror "No such device"). reflexivity.
  - reflexivity.
Defined.

(** ** Cycles *)

Lemma inner_not_led v e : inner e -> is_led v e = false.
Proof.
  intros (Hg & _). destruct e; try reflexivity. discriminate.
Qed.

Lemma is_loop_error_loop_error e : is_loop_error (loop_error e) = true.
Proof. destruct e as [cls msg]. destruct msg; reflexivity. Qed.

Lemma count_inner_led v mid : Forall inner mid -> count (is_led v) mid = 0.
Proof.
  intros H. apply count_none. eapply Forall_impl; [| exact H].
  intros e. apply inner_not_led.
Qed.

Lemma count_inner_loop_error mid :
  Forall inner mid -> count is_loop_error mid = 0.
Proof.
  intros H. apply count_none. eapply Forall_impl; [| exact H].
  intros e (_ & _ & _ & He). exact He.
Qed.

Lemma count_inner_gpio mid : Forall inner mid -> count is_gpio mid = 0.
Proof.
  intros H. apply count_none. eapply Forall_impl; [| exact H].
  intros e (He & _). exact He.
Qed.

Lemma slept_inner mid : Forall inner mid -> slept mid = 0%Z.
Proof.
  intros H. apply slept_none. eapply Forall_impl; [| exact H].
  intros e (_ & He & _). exact He.
Qed.

Section Outcome.

Variable env : Env.
Variable self : FlipperPiDevice.

Lemma scan_body_outcome h : cycle_outcome env h (scan_body env self h).
Proof.
  destruct (scan_body_run env self h)
    as (wn & ev_w & bd & ev_b & ev_d & Ew & Eb & Ed & ->).
  cbv zeta in *.
  assert (Hmid : Forall inner (ev_w ++ ev_b ++ count_logs wn bd ++ ev_d)).
  { repeat (apply Forall_app; split).
    - pose proof (wifi_scan_inner env (h ++ [GPIO_output LED_PIN HIGH])) as H.
      rewrite Ew in H. exact H.
    - pose proof (advanced_bluetooth_scan_inner env self
                    ((h ++ [GPIO_output LED_PIN HIGH]) ++ ev_w)) as H.
      rewrite Eb in H. exact H.
    - repeat constructor.
    - pose proof (update_display_inner env self wn bd
                    ((h ++ [GPIO_output LED_PIN HIGH]) ++
                     ev_w ++ ev_b ++ count_logs wn bd)) as H.
      rewrite Ed in H. exact H. }
  replace (ev_w ++ ev_b ++ count_logs wn bd ++ ev_d ++ [time_sleep 10])
    with ((ev_w ++ ev_b ++ count_logs wn bd ++ ev_d) ++ [time_sleep 10])
    by (rewrite <- !app_assoc; reflexivity).
  destruct (gpio_answer env h LED_PIN HIGH) as [e | []] eqn:Hhigh.
  - apply led_on_raises. exact Hhigh.
  - destruct (gpio_answer env _ LED_PIN LOW) as [e | []] eqn:Hlow.
    + replace ((GPIO_output LED_PIN HIGH ::
                 (ev_w ++ ev_b ++ count_logs wn bd ++ ev_d) ++ [time_sleep 10]) ++
               [GPIO_output LED_PIN LOW])
        with (GPIO_output LED_PIN HIGH ::
                (ev_w ++ ev_b ++ count_logs wn bd ++ ev_d) ++
                [time_sleep 10; GPIO_output LED_PIN LOW])
        by (cbn [app]; rewrite <- !app_assoc; reflexivity).
      apply led_off_raises; assumption.
    + replace ((GPIO_output LED_PIN HIGH ::
                 (ev_w ++ ev_b ++ count_logs wn bd ++ ev_d) ++ [time_sleep 10]) ++
               [GPIO_output LED_PIN LOW; time_sleep 2])
        with (GPIO_output LED_PIN HIGH ::
                (ev_w ++ ev_b ++ count_logs wn bd ++ ev_d) ++
                [time_sleep 10; GPIO_output LED_PIN LOW; time_sleep 2])
        by (cbn [app]; rewrite <- !app_assoc; reflexivity).
      apply completes; assumption.
Qed.

Lemma scan_cycle_no_nfc :
  emits (fun e => is_nfc_read e = false) (scan_cycle env self).
Proof.
  intros h. rewrite scan_cycle_run.
  assert (Hin : forall mid, Forall inner mid ->
                 Forall (fun e => is_nfc_read e = false) mid).
  { intros mid Hmid. eapply Forall_impl; [| exact Hmid].
    intros x (_ & _ & Hx & _). exact Hx. }
  destruct (scan_body_outcome h) as [e He | mid e _ Hmid _ | mid _ Hmid _];
    cbn [snd].
  - repeat constructor.
  - constructor; [reflexivity |].
    repeat (apply Forall_app; split); auto; repeat constructor.
  - constructor; [reflexivity |].
    apply Forall_app; split; auto; repeat constructor.
Qed.

Lemma scan_loop_no_nfc n :
  emits (fun e => is_nfc_read e = false) (scan_loop env self n).
Proof.
  induction n as [| n IH]; cbn [scan_loop].
  - apply emits_ret.
  - apply emits_bind; [apply scan_cycle_no_nfc | intros _; exact IH].
Qed.

End Outcome.

(** ** The indicator *)

(** C1, as the code has it: every cycle writes the LED high exactly once,
    as its first call and so before any scan call; a cycle whose [try]
    block completes, whatever the scans and the display answered, writes
    it low exactly once, right after the dwell sleep; a cycle in which an
    error escapes writes it low at most once, and never when the error is
    that of the write that lights the LED. *)
Theorem indicator_writes_per_cycle env self h :
  let ev := events (scan_cycle env self) h in
  (exists rest, ev = GPIO_output LED_PIN HIGH :: rest) /\
  count (is_led HIGH) ev = 1 /\
  count (is_led LOW) ev <= 1 /\
  (forall e, gpio_answer env h LED_PIN HIGH = inl e -> count (is_led LOW) ev = 0) /\
  (result (scan_body env self) h = inr tt ->
   count (is_led LOW) ev = 1 /\
   exists mid,
     ev = GPIO_output LED_PIN HIGH :: mid ++
          [time_sleep 10; GPIO_output LED_PIN LOW; time_sleep 2] /\
     count is_gpio mid = 0).
Proof.
  cbv zeta. unfold events, result. rewrite scan_cycle_run.
  destruct (scan_body_outcome env self h)
    as [e He | mid e Hhigh Hmid _ | mid Hhigh Hmid _]; cbn [fst snd].
  - split; [eexists; reflexivity |].
    repeat split; try (cbn; lia); try discriminate.
  - list_norm. split; [eexists; reflexivity |].
    change (GPIO_output LED_PIN HIGH :: mid ++ ?t)
      with ([GPIO_output LED_PIN HIGH] ++ mid ++ t).
    rewrite !count_app, !(count_inner_led _ _ Hmid).
    repeat split; try (cbn; lia); try discriminate.
    intros e' He'. congruence.
  - split; [eexists; reflexivity |].
    change (GPIO_output LED_PIN HIGH :: mid ++ ?t)
      with ([GPIO_output LED_PIN HIGH] ++ mid ++ t).
    rewrite !count_app, !(count_inner_led _ _ Hmid).
    split; [cbn; lia |]. split; [cbn; lia |].
    split; [intros e' He'; congruence |]. intros _.
    split; [cbn; lia |].
    exists mid. split; [reflexivity | apply count_inner_gpio; exact Hmid].
Qed.

(** A cycle of the healthy device. *)
Lemma indicator_healthy_cycle :
  let ev := events (scan_cycle Sample.healthy Sample.full) [] in
  count (is_led HIGH) ev = 1 /\ count (is_led LOW) ev = 1.
Proof.
  destruct (indicator_writes_per_cycle Sample.healthy Sample.full [])
    as (_ & Hhigh & _ & _ & Hlow).
  split; [exact Hhigh |].
  apply Hlow. reflexivity.
Defined.

(** C1 as stated fails: when the write that lights the LED raises, the
    error escapes to the handler of the loop and the cycle ends without any
    write that puts the LED out. *)
Lemma escaped_error_skips_idle :
  let ev := events (scan_cycle Sample.no_gpio Sample.full) [] in
  ev = [GPIO_output LED_PIN HIGH;
        loop_error (Sample.runtime_error
                      "The GPIO channel has not been set up as an OUTPUT");
        time_sleep 5] /\
  ~ count (is_led LOW) ev = 1.
Proof. split; [reflexivity | discriminate]. Qed.

(** ** The collaborators a cycle polls *)

(** C2, as the code has it: a cycle whose first LED write returns runs the
    Wi-Fi scan and then the Bluetooth scan, calling the scanning tool and,
    when the device has a scanner, Bluetooth discovery; the loop never
    reads the NFC reader, however many turns it makes. *)
Theorem cycle_polls_wifi_then_bluetooth env self h :
  gpio_answer env h LED_PIN HIGH = inr tt ->
  exists wifi_nets ev_w bt_devices ev_b rest,
    wifi_scan env (h ++ [GPIO_output LED_PIN HIGH]) = (inr wifi_nets, ev_w) /\
    advanced_bluetooth_scan env self ((h ++ [GPIO_output LED_PIN HIGH]) ++ ev_w)
      = (inr bt_devices, ev_b) /\
    events (scan_cycle env self) h =
      GPIO_output LED_PIN HIGH :: ev_w ++ ev_b ++ rest /\
    In (subprocess_check_output iwlist) ev_w /\
    (bluetooth_scanner self <> None ->
     In (bluetooth_discover_devices 8 true) ev_b) /\
    forall n, count is_nfc_read (events (scan_loop env self n) h) = 0.
Proof.
  intros Hhigh.
  destruct (scan_body_run env self h)
    as (wn & ev_w & bd & ev_b & ev_d & Ew & Eb & _ & Hbody).
  cbv zeta in *.
  exists wn, ev_w, bd, ev_b.
  assert (Hrest : exists rest,
             events (scan_cycle env self) h =
               GPIO_output LED_PIN HIGH :: ev_w ++ ev_b ++ rest).
  { unfold events. rewrite scan_cycle_run, Hbody, Hhigh.
    destruct (gpio_answer env _ LED_PIN LOW); cbn [snd]; eexists;
      list_norm; reflexivity. }
  destruct Hrest as [rest Hrest]. exists rest.
  split; [exact Ew |]. split; [exact Eb |]. split; [exact Hrest |].
  split; [| split].
  - rewrite wifi_scan_run in Ew.
    destruct (check_output_answer env _ iwlist) as [e | output].
    + injection Ew as _ <-. left. reflexivity.
    + destruct (parse_lines _ []); injection Ew as _ <-; left; reflexivity.
  - intros Hsc. rewrite advanced_bluetooth_scan_run in Eb.
    destruct (bluetooth_scanner self); [| congruence].
    destruct (discover_devices_answer env _); injection Eb as _ <-;
      left; reflexivity.
  - intros n. apply count_none. apply scan_loop_no_nfc.
Qed.

(** A cycle of the healthy device. *)
Lemma healthy_cycle_polls :
  exists rest,
    events (scan_cycle Sample.healthy Sample.full) [] =
      GPIO_output LED_PIN HIGH :: subprocess_check_output iwlist ::
      bluetooth_discover_devices 8 true :: rest /\
    count is_nfc_read (events (scan_loop Sample.healthy Sample.full 3) []) = 0.
Proof.
  destruct (cycle_polls_wifi_then_bluetooth Sample.healthy Sample.full []
              eq_refl)
    as (wn & ev_w & bd & ev_b & rest & Ew & Eb & Hev & _ & _ & Hnfc).
  injection Ew as _ <-. injection Eb as _ <-.
  eexists. split; [exact Hev | apply Hnfc].
Defined.

(** C2 as stated fails: reading the NFC reader shows in a trace, and the
    cycle of a device that has a reader shows no such read. *)
Lemma cycle_reads_no_nfc_tag :
  In nfc_read (events (NFCReader_read NFCReader_new) []) /\
  nfc_reader Sample.full = Some NFCReader_new /\
  ~ In nfc_read (events (scan_cycle Sample.healthy Sample.full) []).
Proof.
  split; [left; reflexivity |]. split; [reflexivity |].
  vm_compute. intuition discriminate.
Qed.

(** ** Errors that reach the loop, and the pace of the loop *)

(** C6: when an error escapes the [try] block of a cycle, the handler logs
    one entry for it, the only entry of the loop's handler in that cycle,
    and sleeps 5; the cycle returns, the loop goes on from there for any
    number of further turns, and the next cycle opens by lighting the LED. *)
Theorem escaped_error_backs_off env self h e ev :
  scan_body env self h = (inl e, ev) ->
  let ev' := ev ++ [loop_error e; time_sleep 5] in
  scan_cycle env self h = (inr tt, ev') /\
  count is_loop_error ev' = 1 /\
  (5 <= slept ev')%Z /\
  (forall n,
     result (scan_loop env self (S n)) h = inr tt /\
     events (scan_loop env self (S n)) h =
       ev' ++ events (scan_loop env self n) (h ++ ev')) /\
  exists rest,
    events (scan_cycle env self) (h ++ ev') = GPIO_output LED_PIN HIGH :: rest.
Proof.
  intros Hbody. cbv zeta.
  assert (Hcycle : scan_cycle env self h =
                     (inr tt, ev ++ [loop_error e; time_sleep 5]))
    by (rewrite scan_cycle_run, Hbody; reflexivity).
  assert (Hev : events (scan_cycle env self) h = ev ++ [loop_error e; time_sleep 5])
    by (unfold events; rewrite Hcycle; reflexivity).
  split; [exact Hcycle |].
  pose proof (scan_body_outcome env self h) as Hout. rewrite Hbody in Hout.
  split; [| split; [| split]].
  - rewrite count_app.
    replace (count is_loop_error [loop_error e; time_sleep 5]) with 1
      by (unfold count; cbn [filter]; rewrite is_loop_error_loop_error;
          reflexivity).
    inversion Hout as [e' He | mid e' _ Hmid _ |]; subst.
    + reflexivity.
    + change (GPIO_output LED_PIN HIGH :: mid ++ ?t)
        with ([GPIO_output LED_PIN HIGH] ++ mid ++ t).
      rewrite !count_app, (count_inner_loop_error _ Hmid). reflexivity.
  - rewrite slept_app.
    inversion Hout as [e' He | mid e' _ Hmid _ |]; subst.
    + cbn. lia.
    + change (GPIO_output LED_PIN HIGH :: mid ++ ?t)
        with ([GPIO_output LED_PIN HIGH] ++ mid ++ t).
      rewrite !slept_app, (slept_inner _ Hmid). cbn. lia.
  - intros n. split.
    + unfold result. apply scan_loop_returns.
    + rewrite scan_loop_events_S, Hev. reflexivity.
  - apply scan_cycle_head.
Qed.

(** The LED pin cannot be written: the cycle logs the error, sleeps 5, and
    the loop makes its next turn. *)
Lemma escaped_error_no_gpio :
  let e := Sample.runtime_error "The GPIO channel has not been set up as an OUTPUT" in
  let ev' := [GPIO_output LED_PIN HIGH; loop_error e; time_sleep 5] in
  scan_cycle Sample.no_gpio Sample.full [] = (inr tt, ev') /\
  count is_loop_error ev' = 1 /\
  events (scan_loop Sample.no_gpio Sample.full 2) [] = ev' ++ ev'.
Proof.
  intros e ev'.
  destruct (escaped_error_backs_off Sample.no_gpio Sample.full [] e
              [GPIO_output LED_PIN HIGH] eq_refl)
    as (Hc & Hn & _ & Hloop & _).
  split; [exact Hc |]. split; [exact Hn |].
  destruct (Hloop 1) as [_ ->]. reflexivity.
Defined.

(** C7: a cycle without an escaping error makes its calls in this order:
    LED high, the Wi-Fi scan, the Bluetooth scan, the two count lines, the
    display update, a sleep of 10, LED low, a sleep of 2; it sleeps 12 in
    all.  A cycle with an escaping error sleeps 5 or more, so [n] turns
    of the loop sleep at least [5 * n]. *)
Theorem cycle_order env self h :
  (result (scan_body env self) h = inr tt ->
   exists wifi_nets ev_w bt_devices ev_b ev_d,
     let h1 := h ++ [GPIO_output LED_PIN HIGH] in
     wifi_scan env h1 = (inr wifi_nets, ev_w) /\
     advanced_bluetooth_scan env self (h1 ++ ev_w) = (inr bt_devices, ev_b) /\
     update_display env self wifi_nets bt_devices
       (h1 ++ ev_w ++ ev_b ++ count_logs wifi_nets bt_devices) = (inr tt, ev_d) /\
     events (scan_cycle env self) h =
       [GPIO_output LED_PIN HIGH] ++ ev_w ++ ev_b ++
       count_logs wifi_nets bt_devices ++ ev_d ++
       [time_sleep 10; GPIO_output LED_PIN LOW; time_sleep 2] /\
     slept (events (scan_cycle env self) h) = (10 + 2)%Z) /\
  (forall e, result (scan_body env self) h = inl e ->
             (5 <= slept (events (scan_cycle env self) h))%Z) /\
  (forall n, (5 * Z.of_nat n <= slept (events (scan_loop env self n) h))%Z).
Proof.
  assert (Hany : forall h', (5 <= slept (events (scan_cycle env self) h'))%Z).
  { intros h'. unfold events. rewrite scan_cycle_run.
    destruct (scan_body_outcome env self h')
      as [e He | mid e _ Hmid _ | mid _ Hmid _]; cbn [snd].
    - cbn. lia.
    - change (GPIO_output LED_PIN HIGH :: mid ++ ?t)
        with ([GPIO_output LED_PIN HIGH] ++ mid ++ t).
      rewrite !slept_app, (slept_inner _ Hmid). cbn. lia.
    - change (GPIO_output LED_PIN HIGH :: mid ++ ?t)
        with ([GPIO_output LED_PIN HIGH] ++ mid ++ t).
      rewrite !slept_app, (slept_inner _ Hmid). cbn. lia. }
  split; [| split].
  - intros Hok.
    destruct (scan_body_run env self h)
      as (wn & ev_w & bd & ev_b & ev_d & Ew & Eb & Ed & Hbody).
    cbv zeta in *.
    exists wn, ev_w, bd, ev_b, ev_d.
    split; [exact Ew |]. split; [exact Eb |]. split; [exact Ed |].
    assert (Hev : events (scan_cycle env self) h =
                    [GPIO_output LED_PIN HIGH] ++ ev_w ++ ev_b ++
                    count_logs wn bd ++ ev_d ++
                    [time_sleep 10; GPIO_output LED_PIN LOW; time_sleep 2]).
    { unfold events, result in *. rewrite scan_cycle_run.
      rewrite Hbody in Hok |- *.
      destruct (gpio_answer env h LED_PIN HIGH); [discriminate |].
      destruct (gpio_answer env _ LED_PIN LOW); [discriminate |].
      cbn [snd]. list_norm. reflexivity. }
    split; [exact Hev |].
    rewrite Hev, !slept_app.
    pose proof (wifi_scan_inner env (h ++ [GPIO_output LED_PIN HIGH])) as Hw.
    rewrite Ew in Hw.
    pose proof (advanced_bluetooth_scan_inner env self
                  ((h ++ [GPIO_output LED_PIN HIGH]) ++ ev_w)) as Hb.
    rewrite Eb in Hb.
    pose proof (update_display_inner env self wn bd
                  ((h ++ [GPIO_output LED_PIN HIGH]) ++
                   ev_w ++ ev_b ++ count_logs wn bd)) as Hd.
    rewrite Ed in Hd. cbn [snd] in *.
    rewrite (slept_inner _ Hw), (slept_inner _ Hb), (slept_inner _ Hd).
    reflexivity.
  - intros e _. apply Hany.
  - intros n. revert h. induction n as [| n IH]; intros h.
    + cbn. lia.
    + rewrite scan_loop_events_S, slept_app.
      specialize (IH (h ++ events (scan_cycle env self) h)).
      specialize (Hany h). lia.
Qed.

(** The order of a healthy cycle, and the pace of a loop whose LED pin
    cannot be written. *)
Lemma cycle_order_samples :
  events (scan_cycle Sample.healthy Sample.full) [] =
    [GPIO_output LED_PIN HIGH;
     subprocess_check_output iwlist;
     bluetooth_discover_devices 8 true; bluetooth_find_service "AA:BB";
     logger_info "WiFi: 2 redes"; logger_info "Bluetooth: 1 dispositivos";
     display_fill 0; display_text "WiFi: 2" 0 0 1;
     display_text "BT: 1" 0 10 1; display_show;
     time_sleep 10; GPIO_output LED_PIN LOW; time_sleep 2] /\
  (5 <= slept (events (scan_cycle Sample.no_gpio Sample.full) []))%Z.
Proof.
  destruct (cycle_order Sample.healthy Sample.full []) as (Hok & _ & _).
  destruct (cycle_order Sample.no_gpio Sample.full []) as (_ & Herr & _).
  split.
  - destruct (Hok eq_refl) as (wn & ev_w & bd & ev_b & ev_d & Ew & Eb & Ed & Hev & _).
    cbv zeta in *. injection Ew as <- <-. injection Eb as <- <-.
    injection Ed as <-. exact Hev.
  - apply (Herr (Sample.runtime_error
                   "The GPIO channel has not been set up as an OUTPUT")).
    reflexivity.
Defined.

(** ** The display *)

(** C8: [update_display] returns whatever the display does: with no display
    attribute it makes no call, and an error of the driver is logged and
    goes no further.  In a cycle the dwell sleep and the write that puts
    the LED out follow the display update, and every further turn of the
    loop opens by lighting the LED. *)
Theorem display_failure_contained env self h :
  (forall wifi_nets bt_devices h',
     result (update_display env self wifi_nets bt_devices) h' = inr tt) /\
  (display self = None ->
   forall wifi_nets bt_devices h',
     events (update_display env self wifi_nets bt_devices) h' = []) /\
  (forall d e wifi_nets bt_devices h',
     display self = Some d ->
     display_answer env h' (display_fill 0) = inl e ->
     events (update_display env self wifi_nets bt_devices) h' =
       [display_fill 0; logger_error ("Erro ao atualizar display: " +++ str e)]) /\
  (gpio_answer env h LED_PIN HIGH = inr tt ->
   exists wifi_nets bt_devices before ev_d after,
     update_display env self wifi_nets bt_devices (h ++ before) = (inr tt, ev_d) /\
     events (scan_cycle env self) h =
       before ++ ev_d ++
       time_sleep 10 :: GPIO_output LED_PIN LOW :: after) /\
  (forall n, exists rest,
     events (scan_loop env self (S n)) h =
       events (scan_loop env self n) h ++ GPIO_output LED_PIN HIGH :: rest).
Proof.
  split; [| split; [| split; [| split]]].
  - intros wn bd h'. apply update_display_returns.
  - intros Hnone wn bd h'. unfold events, update_display. rewrite Hnone.
    reflexivity.
  - intros d e wn bd h' Hd He. unfold events, update_display. rewrite Hd.
    unfold try_except, bind at 1, display_call at 1, call. rewrite He.
    reflexivity.
  - intros Hhigh.
    destruct (scan_body_run env self h)
      as (wn & ev_w & bd & ev_b & ev_d & _ & _ & Ed & Hbody).
    cbv zeta in *.
    exists wn, bd,
      ([GPIO_output LED_PIN HIGH] ++ ev_w ++ ev_b ++ count_logs wn bd), ev_d.
    rewrite app_assoc. unfold events.
    rewrite scan_cycle_run, Hbody, Hhigh.
    destruct (gpio_answer env _ LED_PIN LOW); eexists;
      (split; [exact Ed |]); cbn [snd]; unfold count_logs; list_norm;
      reflexivity.
  - intros n. rewrite scan_loop_next.
    destruct (scan_cycle_head env self (h ++ events (scan_loop env self n) h))
      as [rest ->].
    exists rest. reflexivity.
Qed.

(** The OLED does not answer: setup leaves no display attribute and the
    update is silent; with a display attribute, the error of the first
    driver call is logged; either way the cycle goes on to the dwell sleep
    and puts the LED out. *)
Lemma display_failure_samples :
  result (setup_modules Sample.no_oled) [] = inr Sample.headless /\
  events (update_display Sample.no_oled Sample.headless [] []) [] = [] /\
  events (update_display Sample.no_oled Sample.full [] []) [] =
    [display_fill 0; logger_error "Erro ao atualizar display: Remote I/O error"] /\
  exists before after,
    events (scan_cycle Sample.no_oled Sample.full) [] =
      before ++
      [display_fill 0; logger_error "Erro ao atualizar display: Remote I/O error"] ++
      time_sleep 10 :: GPIO_output LED_PIN LOW :: after.
Proof.
  destruct (display_failure_contained Sample.no_oled Sample.headless [])
    as (_ & Hsilent & _).
  destruct (display_failure_contained Sample.no_oled Sample.full [])
    as (_ & _ & Hlog & Hcycle & _).
  split; [reflexivity |].
  split; [apply Hsilent; reflexivity |].
  split; [apply (Hlog SSD1306 (Sample.oserror "Remote I/O error"));
          reflexivity |].
  destruct (Hcycle eq_refl) as (wn & bd & before & ev_d & after & Ed & Hev).
  exists before, after. rewrite Hev. do 2 f_equal.
  pose proof (Hlog SSD1306 (Sample.oserror "Remote I/O error") wn bd
                ([] ++ before) eq_refl eq_refl) as Hd.
  unfold events in Hd. rewrite Ed in Hd. exact Hd.
Defined.

(** ** More on Python's [split] and [in] *)

Lemma split_cons c s : exists seg segs, Py.split c s = seg :: segs.
Proof.
  destruct s as [| d s]; cbn [Py.split]; [eauto |].
  destruct (Ascii.eqb d c); [eauto |].
  destruct (Py.split c s); eauto.
Qed.

Lemma split_head c s : nth_error (Py.split c s) 0 = Some (upto c s).
Proof.
  induction s as [| d s IH]; cbn [Py.split upto]; [reflexivity |].
  destruct (Ascii.eqb d c); [reflexivity |].
  destruct (Py.split c s) as [| seg segs]; [discriminate |].
  cbn [nth_error] in *. injection IH as ->. reflexivity.
Qed.

Lemma split_tail c s :
  tl (Py.split c s) =
    match after c s with
    | Some rest => Py.split c rest
    | None => []
    end.
Proof.
  induction s as [| d s IH]; cbn [Py.split after]; [reflexivity |].
  destruct (Ascii.eqb d c); [reflexivity |].
  destruct (Py.split c s) as [| seg segs].
  - destruct (split_cons c s) as (? & ? & H). cbn [Py.split] in *. 
    exact IH.
  - exact IH.
Qed.

Lemma split_second c s :
  nth_error (Py.split c s) 1 = option_map (upto c) (after c s).
Proof.
  pose proof (split_tail c s) as Ht.
  destruct (Py.split c s) as [| seg segs] eqn:E.
  - destruct (split_cons c s) as (? & ? & H). congruence.
  - cbn [tl nth_error] in *. subst segs.
    destruct (after c s) as [rest |]; [apply split_head | reflexivity].
Qed.

Lemma split_length c s :
  List.length (Py.split c s) < 2 <-> Py.has_char c s = false.
Proof.
  induction s as [| d s IH]; cbn [Py.split Py.has_char].
  - cbn. split; [reflexivity | lia].
  - destruct (Ascii.eqb d c).
    + destruct (split_cons c s) as (seg & segs & ->). cbn [List.length].
      split; [lia | discriminate].
    + destruct (split_cons c s) as (seg & segs & Hs). rewrite Hs in *.
      exact IH.
Qed.

Lemma prefix_append a : forall s,
  String.prefix a s = true <-> exists post, s = a +++ post.
Proof.
  induction a as [| x a IH]; intros s.
  - destruct s; cbn; split; eauto.
  - destruct s as [| y s]; cbn [String.prefix String.append].
    + split; [discriminate | intros [post H]; discriminate].
    + destruct (Ascii.ascii_dec x y) as [<- | Hxy].
      * rewrite IH. split; intros [post H]; exists post; congruence.
      * split; [discriminate | intros [post H]; congruence].
Qed.

(** X1: the test [needle in s] that [wifi_scan] makes on every line answers
    true exactly when [needle] is a substring of [s]. *)
Theorem marker_test_is_substring needle s :
  Py.contains needle s = true <-> substring_of needle s.
Proof.
  unfold substring_of. induction s as [| d s IH].
  - cbn [Py.contains].
    destruct (String.prefix needle EmptyString) eqn:Ep.
    + split; [| reflexivity]. intros _.
      apply prefix_append in Ep. destruct Ep as [post Hp].
      exists EmptyString, post. exact Hp.
    + split; [discriminate |]. intros (pre & post & H).
      destruct pre; [| discriminate]. cbn [String.append] in H.
      assert (String.prefix needle EmptyString = true)
        by (apply prefix_append; eauto).
      congruence.
  - cbn [Py.contains].
    destruct (String.prefix needle (String d s)) eqn:Ep.
    + split; [| reflexivity]. intros _.
      apply prefix_append in Ep. destruct Ep as [post Hp].
      exists EmptyString, post. exact Hp.
    + rewrite IH. split.
      * intros (pre & post & ->). exists (String d pre), post. reflexivity.
      * intros (pre & post & H). destruct pre as [| x pre].
        -- cbn [String.append] in H.
           assert (String.prefix needle (String d s) = true)
             by (apply prefix_append; eauto).
           congruence.
        -- cbn [String.append] in H. injection H as _ ->. eauto.
Qed.

(** X2: splitting loses nothing: the segments of [s.split(c)] hold no [c],
    and joined with [c] they give [s] back. *)
Theorem split_join c s :
  str_join (String c EmptyString) (Py.split c s) = s /\
  Forall (fun seg => Py.has_char c seg = false) (Py.split c s).
Proof.
  induction s as [| d s [IHj IHf]]; cbn [Py.split].
  - split; [reflexivity | repeat constructor].
  - destruct (Ascii.eqb d c) eqn:E.
    + apply Ascii.eqb_eq in E. subst d. split.
      * destruct (split_cons c s) as (seg & segs & Hs). rewrite Hs in *.
        cbn [str_join]. cbn [str_join] in IHj. rewrite IHj. reflexivity.
      * constructor; [reflexivity | exact IHf].
    + destruct (Py.split c s) as [| seg segs].
      * destruct (split_cons c s) as (? & ? & H). split.
        -- cbn [str_join] in *. subst s. reflexivity.
        -- repeat constructor. cbn [Py.has_char]. rewrite E. reflexivity.
      * split.
        -- cbn [str_join] in *. destruct segs; subst s; reflexivity.
        -- inversion IHf as [| ? ? Hseg Hsegs]; subst.
           constructor; [| exact Hsegs].
           cbn [Py.has_char]. rewrite E. exact Hseg.
Qed.

(** ** More on the Wi-Fi scan *)

Lemma parse_lines_filter lines : forall networks,
  parse_lines lines networks =
    parse_lines (filter (Py.contains "ESSID") lines) networks.
Proof.
  induction lines as [| l lines IH]; intros networks;
    cbn [parse_lines filter]; [reflexivity |].
  destruct (Py.contains "ESSID" l) eqn:El.
  - cbn [parse_lines]. rewrite El.
    destruct (nth_error (Py.split Py.dquote l) 1); [apply IH | reflexivity].
  - apply IH.
Qed.

Lemma parse_lines_length lines : forall networks found,
  parse_lines lines networks = inr found ->
  List.length found =
    List.length networks + List.length (filter (Py.contains "ESSID") lines).
Proof.
  induction lines as [| l lines IH]; intros networks found;
    cbn [parse_lines filter].
  - intros [= <-]. cbn. lia.
  - destruct (Py.contains "ESSID" l).
    + destruct (nth_error (Py.split Py.dquote l) 1); [| discriminate].
      intros H. rewrite (IH _ _ H), length_app. cbn. lia.
    + apply IH.
Qed.

Lemma split_first_quoted l :
  Py.has_char Py.dquote l = true ->
  nth_error (Py.split Py.dquote l) 1 = Some (first_quoted l).
Proof.
  intros Hl. rewrite split_second. unfold first_quoted.
  destruct (after Py.dquote l) as [rest |] eqn:Ea; [reflexivity |].
  exfalso. induction l as [| d l IHl]; [discriminate |].
  cbn [Py.has_char after] in *.
  destruct (Ascii.eqb d Py.dquote); [discriminate | auto].
Qed.

Lemma parse_lines_first_quoted lines : forall networks,
  Forall (fun l => Py.has_char Py.dquote l = true)
         (filter (Py.contains "ESSID") lines) ->
  parse_lines lines networks =
    inr (networks ++
         map (fun l => {| ssid := first_quoted l |})
             (filter (Py.contains "ESSID") lines)).
Proof.
  induction lines as [| l lines IH]; intros networks H;
    cbn [parse_lines filter] in *.
  - rewrite app_nil_r. reflexivity.
  - destruct (Py.contains "ESSID" l).
    + inversion H as [| ? ? Hl Hrest]; subst.
      rewrite (split_first_quoted _ Hl), (IH _ Hrest). cbn [map].
      rewrite <- app_assoc. reflexivity.
    + apply IH. exact H.
Qed.

Lemma parse_lines_no_quote lines : forall networks,
  Exists (fun l => Py.has_char Py.dquote l = false)
         (filter (Py.contains "ESSID") lines) ->
  parse_lines lines networks = inl IndexError.
Proof.
  intros networks H. apply Exists_exists in H. destruct H as (l & Hin & Hl).
  apply filter_In in Hin. destruct Hin as [Hin Hm].
  apply (parse_lines_unquoted lines l Hin Hm).
  apply split_length. exact Hl.
Qed.

Lemma Forall_or_Exists_quote (lines : list string) :
  Forall (fun l => Py.has_char Py.dquote l = true) lines \/
  Exists (fun l => Py.has_char Py.dquote l = false) lines.
Proof.
  induction lines as [| l lines [IH | IH]].
  - left. constructor.
  - destruct (Py.has_char Py.dquote l) eqn:E.
    + left. constructor; assumption.
    + right. constructor. exact E.
  - right. apply Exists_cons_tl. exact IH.
Qed.

(** X3: when every marker line of the tool's output has a double quote,
    [wifi_scan] returns one network per marker line, in line order, named
    by the text from the line's first double quote to the next one or to
    the end of the line; nothing is logged. *)
Theorem wifi_scan_names env h output :
  check_output_answer env h iwlist = inr output ->
  Forall (fun l => Py.has_char Py.dquote l = true) (marker_lines output) ->
  wifi_scan env h =
    (inr (map (fun l => {| ssid := first_quoted l |}) (marker_lines output)),
     [subprocess_check_output iwlist]).
Proof.
  intros Hout Hq. rewrite wifi_scan_run, Hout.
  rewrite (parse_lines_first_quoted _ [] Hq). reflexivity.
Qed.

(** A hidden network gives the empty name, and a name whose closing quote
    is missing runs to the end of its line. *)
Lemma wifi_scan_names_open_quote :
  wifi_scan (More.printing More.hidden_and_open) [] =
    (inr [{| ssid := "" |}; {| ssid := "Home" |}],
     [subprocess_check_output iwlist]).
Proof.
  apply (wifi_scan_names (More.printing More.hidden_and_open) []
           More.hidden_and_open).
  - reflexivity.
  - vm_compute. repeat constructor.
Defined.

(** X4: when the tool answers, [wifi_scan] fails, returning the empty list
    with the index error logged, exactly when some marker line of the
    output has no double quote at all. *)
Theorem wifi_scan_fails_iff env h output :
  check_output_answer env h iwlist = inr output ->
  (wifi_scan env h =
     (inr [], [subprocess_check_output iwlist; wifi_error IndexError])
   <->
   Exists (fun l => Py.has_char Py.dquote l = false) (marker_lines output)).
Proof.
  intros Hout. rewrite wifi_scan_run, Hout. unfold marker_lines. split.
  - intros H.
    destruct (Forall_or_Exists_quote
                (filter (Py.contains "ESSID") (Py.split Py.newline output)))
      as [Hall | Hex]; [| exact Hex].
    rewrite (parse_lines_first_quoted _ [] Hall) in H. discriminate.
  - intros Hex. rewrite (parse_lines_no_quote _ [] Hex). reflexivity.
Qed.

(** The cell printed without quotes makes the scan fail; the two quoted
    cells do not. *)
Lemma wifi_scan_fails_iff_samples :
  wifi_scan Sample.odd_iwlist [] =
    (inr [], [subprocess_check_output iwlist; wifi_error IndexError]) /\
  wifi_scan Sample.healthy [] <>
    (inr [], [subprocess_check_output iwlist; wifi_error IndexError]).
Proof.
  split.
  - apply (wifi_scan_fails_iff Sample.odd_iwlist [] Sample.unquoted_cell eq_refl).
    vm_compute. apply Exists_cons_tl. apply Exists_cons_hd. reflexivity.
  - intros H.
    apply (wifi_scan_fails_iff Sample.healthy [] Sample.two_cells eq_refl) in H.
    vm_compute in H.
    inversion H as [? ? Ha | ? ? Ha]; [discriminate |].
    inversion Ha as [? ? Hb | ? ? Hb]; [discriminate | inversion Hb].
Defined.

(** X5: [wifi_scan] is all or nothing.  It calls the tool once; then either
    the tool answered and the scan returns exactly one network per marker
    line and logs nothing, or it returns the empty list and logs exactly
    one error.  No partial list is ever returned. *)
Theorem wifi_scan_all_or_nothing env h :
  (exists output found,
     check_output_answer env h iwlist = inr output /\
     wifi_scan env h = (inr found, [subprocess_check_output iwlist]) /\
     List.length found = List.length (marker_lines output)) \/
  (exists e,
     wifi_scan env h =
       (inr [], [subprocess_check_output iwlist; wifi_error e])).
Proof.
  rewrite wifi_scan_run.
  destruct (check_output_answer env h iwlist) as [e | output] eqn:Hout.
  - right. exists e. reflexivity.
  - destruct (parse_lines (Py.split Py.newline output) []) as [e | found] eqn:Hp.
    + right. exists e. reflexivity.
    + left. exists output, found. split; [reflexivity |].
      split; [reflexivity |]. apply (parse_lines_length _ _ _ Hp).
Qed.

(** X6: lines without the marker play no part: two outputs with the same
    marker lines give the same scan, whatever else they print. *)
Theorem wifi_scan_ignores_other_lines env1 h1 env2 h2 output1 output2 :
  check_output_answer env1 h1 iwlist = inr output1 ->
  check_output_answer env2 h2 iwlist = inr output2 ->
  marker_lines output1 = marker_lines output2 ->
  wifi_scan env1 h1 = wifi_scan env2 h2.
Proof.
  unfold marker_lines. intros H1 H2 Hm.
  rewrite !wifi_scan_run, H1, H2.
  rewrite (parse_lines_filter (Py.split Py.newline output1)).
  rewrite (parse_lines_filter (Py.split Py.newline output2)).
  rewrite Hm. reflexivity.
Qed.

(** The same two cells, printed among different lines and seen at
    different moments. *)
Lemma wifi_scan_same_cells :
  wifi_scan Sample.healthy [] =
  wifi_scan (More.printing More.other_lines) [GPIO_output LED_PIN HIGH].
Proof.
  apply (wifi_scan_ignores_other_lines Sample.healthy []
           (More.printing More.other_lines) [GPIO_output LED_PIN HIGH]
           Sample.two_cells More.other_lines); reflexivity.
Defined.

(** ** More on the Bluetooth scan *)

Lemma enrich_services env devices : forall h,
  Forall (fun d => services d <> None) (enrich env h devices).
Proof.
  induction devices as [| d devices IH]; intros h; cbn [enrich];
    constructor; [discriminate | apply IH].
Qed.

(** X7: every device that [advanced_bluetooth_scan] returns has its
    services set, and a device whose lookup answers carries exactly the
    services answered, beside its address and name. *)
Theorem answered_lookup_is_kept env self h sc nearby :
  bluetooth_scanner self = Some sc ->
  discover_devices_answer env h = inr nearby ->
  exists detailed,
    result (advanced_bluetooth_scan env self) h = inr detailed /\
    Forall (fun d => services d <> None) detailed /\
    forall i addr nm svcs,
      nth_error nearby i = Some (addr, nm) ->
      find_service_answer env
        (h ++ bluetooth_discover_devices 8 true ::
           map (fun p => bluetooth_find_service (fst p)) (firstn i nearby))
        addr = inr svcs ->
      nth_error detailed i =
        Some {| address := addr; name := nm; services := Some svcs |}.
Proof.
  intros Hsc Hd.
  exists (enrich env (h ++ [bluetooth_discover_devices 8 true]) (map found nearby)).
  unfold result. rewrite advanced_bluetooth_scan_run, Hsc, Hd. cbn [fst].
  split; [reflexivity |]. split; [apply enrich_services |].
  intros i addr nm svcs Hi Hs.
  rewrite (enrich_nth env (map found nearby) _ i (found (addr, nm))).
  - unfold lookups. rewrite firstn_map, map_map.
    rewrite <- app_assoc. cbn [app found address fst].
    rewrite Hs. reflexivity.
  - rewrite nth_error_map, Hi. reflexivity.
Qed.

(** Two phones: the lookup of the first raises, the second answers. *)
Lemma answered_lookup_two_phones :
  result (advanced_bluetooth_scan More.two_phones Sample.full) [] =
    inr [{| address := "AA:BB"; name := "Phone"; services := Some [] |};
         {| address := "CC:DD"; name := "Watch";
            services := Some ["Heart Rate"] |}] /\
  exists detailed,
    result (advanced_bluetooth_scan More.two_phones Sample.full) [] = inr detailed /\
    nth_error detailed 1 =
      Some {| address := "CC:DD"; name := "Watch";
              services := Some ["Heart Rate"] |}.
Proof.
  split; [reflexivity |].
  destruct (answered_lookup_is_kept More.two_phones Sample.full []
              BluetoothScanner_new [("AA:BB", "Phone"); ("CC:DD", "Watch")]
              eq_refl eq_refl)
    as (detailed & Hr & _ & Hnth).
  exists detailed. split; [exact Hr |].
  apply (Hnth 1 "CC:DD" "Watch" ["Heart Rate"]); reflexivity.
Defined.

(** X8: after a discovery that answers, [advanced_bluetooth_scan] makes one
    service lookup per discovered device, in discovery order, and nothing
    else: a lookup that raises is neither retried nor reported. *)
Theorem one_lookup_per_device env self h sc nearby :
  bluetooth_scanner self = Some sc ->
  discover_devices_answer env h = inr nearby ->
  events (advanced_bluetooth_scan env self) h =
    bluetooth_discover_devices 8 true ::
    map (fun p => bluetooth_find_service (fst p)) nearby.
Proof.
  intros Hsc Hd. unfold events.
  rewrite advanced_bluetooth_scan_run, Hsc, Hd. cbn [snd].
  unfold lookups. rewrite map_map. reflexivity.
Qed.

(** Two phones, one lookup each, the failed one leaving no other trace. *)
Lemma one_lookup_two_phones :
  events (advanced_bluetooth_scan More.two_phones Sample.full) [] =
    [bluetooth_discover_devices 8 true;
     bluetooth_find_service "AA:BB"; bluetooth_find_service "CC:DD"].
Proof.
  apply (one_lookup_per_device More.two_phones Sample.full []
           BluetoothScanner_new [("AA:BB", "Phone"); ("CC:DD", "Watch")]);
    reflexivity.
Defined.

(** X9: the Bluetooth scan never writes to the logger, whatever fails: a
    discovery error goes to [print] and lookup errors go nowhere. *)
Theorem bluetooth_scan_never_logs env self h :
  count is_logger (events (advanced_bluetooth_scan env self) h) = 0.
Proof.
  unfold events. rewrite advanced_bluetooth_scan_run.
  destruct (bluetooth_scanner self); [| reflexivity].
  destruct (discover_devices_answer env h) as [e | nearby]; [reflexivity |].
  cbn [snd]. apply count_none. constructor; [reflexivity |].
  unfold lookups. rewrite map_map. apply Forall_map.
  apply Forall_forall. intros p _. reflexivity.
Qed.

(** ** More on the display *)



(** ** More on cycles and on the loop *)

Lemma count_cons p e (ev : list Event) :
  count p (e :: ev) = (if p e then 1 else 0) + count p ev.
Proof. unfold count. cbn [filter]. destruct (p e); reflexivity. Qed.

Lemma filter_none (p : Event -> bool) ev :
  Forall (fun e => p e = false) ev -> filter p ev = [].
Proof.
  induction 1 as [| e ev He _ IH]; cbn [filter]; [reflexivity |].
  rewrite He. exact IH.
Qed.

Section MoreCycles.

Variable env : Env.
Variable self : FlipperPiDevice.

Lemma cycle_high_once h :
  count (is_led HIGH) (events (scan_cycle env self) h) = 1.
Proof.
  unfold events. rewrite scan_cycle_run.
  destruct (scan_body_outcome env self h)
    as [e He | mid e _ Hmid _ | mid _ Hmid _]; cbn [snd]; list_norm;
    rewrite ?count_cons, ?count_app, ?(count_inner_led _ _ Hmid);
    reflexivity.
Qed.

Lemma cycle_low_at_most_once h :
  count (is_led LOW) (events (scan_cycle env self) h) <= 1.
Proof.
  unfold events. rewrite scan_cycle_run.
  destruct (scan_body_outcome env self h)
    as [e He | mid e _ Hmid _ | mid _ Hmid _]; cbn [snd]; list_norm;
    rewrite ?count_cons, ?count_app, ?(count_inner_led _ _ Hmid);
    cbn; lia.
Qed.

(** A cycle on a GPIO driver whose writes return. *)
Lemma reliable_cycle h :
  gpio_reliable env ->
  exists mid,
    Forall inner mid /\
    events (scan_cycle env self) h =
      GPIO_output LED_PIN HIGH :: mid ++
      [time_sleep 10; GPIO_output LED_PIN LOW; time_sleep 2].
Proof.
  intros Hg. unfold events. rewrite scan_cycle_run.
  destruct (scan_body_outcome env self h)
    as [e He | mid e _ Hmid He | mid _ Hmid _].
  - rewrite Hg in He. discriminate.
  - rewrite Hg in He. discriminate.
  - exists mid. split; [exact Hmid | reflexivity].
Qed.

End MoreCycles.

(** X11: a cycle sleeps 12 when it completes, 5 when the write that lights
    the LED raises, and 15 when the write that puts it out raises: that
    error comes after the dwell, so the backoff of 5 follows the 10 already
    slept and the cooldown of 2 is skipped. *)
Theorem cycle_sleeps env self h :
  slept (events (scan_cycle env self) h) =
    match gpio_answer env h LED_PIN HIGH with
    | inl _ => 5%Z
    | inr _ =>
        match result (scan_body env self) h with
        | inr _ => 12%Z
        | inl _ => 15%Z
        end
    end.
Proof.
  unfold events, result. rewrite scan_cycle_run.
  destruct (scan_body_outcome env self h)
    as [e He | mid e Hh Hmid _ | mid Hh Hmid _]; cbn [fst snd].
  - rewrite He. reflexivity.
  - rewrite Hh. list_norm.
    change (GPIO_output LED_PIN HIGH :: mid ++ ?t)
      with ([GPIO_output LED_PIN HIGH] ++ mid ++ t).
    rewrite !slept_app, (slept_inner _ Hmid). reflexivity.
  - rewrite Hh.
    change (GPIO_output LED_PIN HIGH :: mid ++ ?t)
      with ([GPIO_output LED_PIN HIGH] ++ mid ++ t).
    rewrite !slept_app, (slept_inner _ Hmid). reflexivity.
Qed.

(** The LED that cannot be put out: the cycle sleeps 10 and then 5. *)
Lemma cycle_sleeps_stuck_on :
  slept (events (scan_cycle More.stuck_on Sample.full) []) = 15%Z /\
  slept (events (scan_cycle Sample.no_gpio Sample.full) []) = 5%Z /\
  slept (events (scan_cycle Sample.no_iwlist Sample.headless) []) = 12%Z.
Proof.
  split; [| split].
  - exact (cycle_sleeps More.stuck_on Sample.full []).
  - exact (cycle_sleeps Sample.no_gpio Sample.full []).
  - exact (cycle_sleeps Sample.no_iwlist Sample.headless []).
Defined.

(** X12: on a GPIO driver whose writes return, no failure of the Wi-Fi
    tool, of Bluetooth or of the display reaches the handler of the loop:
    [n] turns log no loop error, put the LED out [n] times and sleep
    exactly [12 * n]. *)
Theorem reliable_gpio_never_backs_off env self n :
  gpio_reliable env ->
  forall h,
    let ev := events (scan_loop env self n) h in
    count is_loop_error ev = 0 /\
    count (is_led LOW) ev = n /\
    slept ev = (12 * Z.of_nat n)%Z.
Proof.
  intros Hg. cbv zeta. induction n as [| n IH]; intros h.
  - repeat split.
  - rewrite scan_loop_events_S.
    destruct (IH (h ++ events (scan_cycle env self) h)) as (IHe & IHl & IHs).
    destruct (reliable_cycle env self h Hg) as (mid & Hmid & Hc).
    rewrite !count_app, !slept_app, IHe, IHl, IHs, Hc.
    change (GPIO_output LED_PIN HIGH :: mid ++ ?t)
      with ([GPIO_output LED_PIN HIGH] ++ mid ++ t).
    rewrite !count_app, !slept_app.
    rewrite (count_inner_loop_error _ Hmid), (count_inner_led _ _ Hmid),
      (slept_inner _ Hmid).
    change (count is_loop_error [GPIO_output LED_PIN HIGH]) with 0.
    change (count (is_led LOW) [GPIO_output LED_PIN HIGH]) with 0.
    change (count is_loop_error
              [time_sleep 10; GPIO_output LED_PIN LOW; time_sleep 2]) with 0.
    change (count (is_led LOW)
              [time_sleep 10; GPIO_output LED_PIN LOW; time_sleep 2]) with 1.
    change (slept [GPIO_output LED_PIN HIGH]) with 0%Z.
    change (slept [time_sleep 10; GPIO_output LED_PIN LOW; time_sleep 2])
      with 12%Z.
    repeat split; lia.
Qed.

(** Three turns with every scanner and the display failing. *)
Lemma reliable_gpio_three_turns :
  let ev := events (scan_loop More.only_gpio Sample.full 3) [] in
  count is_loop_error ev = 0 /\ count (is_led LOW) ev = 3 /\ slept ev = 36%Z.
Proof.
  apply (reliable_gpio_never_backs_off More.only_gpio Sample.full 3).
  intros h pin v. reflexivity.
Defined.

(** X13: on a GPIO driver whose writes return, the GPIO writes of [n]
    turns are [n] times LED high then LED low: the LED is lit at the start
    of every turn and is out when the turn ends. *)
Theorem reliable_gpio_blinks env self n :
  gpio_reliable env ->
  forall h, filter is_gpio (events (scan_loop env self n) h) = blinks n.
Proof.
  intros Hg. induction n as [| n IH]; intros h.
  - reflexivity.
  - rewrite scan_loop_events_S, filter_app, IH.
    destruct (reliable_cycle env self h Hg) as (mid & Hmid & ->).
    cbn [filter is_gpio blinks app]. rewrite filter_app.
    rewrite (filter_none is_gpio mid).
    + reflexivity.
    + eapply Forall_impl; [| exact Hmid]. intros e (He & _). exact He.
Qed.

(** Two turns with every scanner and the display failing. *)
Lemma reliable_gpio_two_blinks :
  filter is_gpio (events (scan_loop More.only_gpio Sample.full 2) []) =
    [GPIO_output LED_PIN HIGH; GPIO_output LED_PIN LOW;
     GPIO_output LED_PIN HIGH; GPIO_output LED_PIN LOW].
Proof.
  apply (reliable_gpio_blinks More.only_gpio Sample.full 2).
  intros h pin v. reflexivity.
Defined.

(** X14: whatever the environment does, [n] turns of the loop light the
    LED exactly [n] times and put it out at most [n] times. *)
Theorem loop_lights_once_per_turn env self n : forall h,
  count (is_led HIGH) (events (scan_loop env self n) h) = n /\
  count (is_led LOW) (events (scan_loop env self n) h) <= n.
Proof.
  induction n as [| n IH]; intros h.
  - split; [reflexivity | cbn; lia].
  - rewrite scan_loop_events_S, !count_app.
    destruct (IH (h ++ events (scan_cycle env self) h)) as [IHh IHl].
    pose proof (cycle_high_once env self h).
    pose proof (cycle_low_at_most_once env self h).
    lia.
Qed.

(** ** Setup, and what the loop inherits from it *)

(** What [setup_modules] does, display call by display call. *)
Lemma setup_modules_run env h :
  setup_modules env h =
    match display_answer env h board_I2C with
    | inl e => (inr (equipped None), [board_I2C; setup_warning e])
    | inr _ =>
        match display_answer env (h ++ [board_I2C]) (SSD1306_I2C 128 64) with
        | inl e =>
            (inr (equipped None),
             [board_I2C; SSD1306_I2C 128 64; setup_warning e])
        | inr _ =>
            match display_answer env
                    ((h ++ [board_I2C]) ++ [SSD1306_I2C 128 64])
                    (display_fill 0) with
            | inl e =>
                (inr (equipped (Some SSD1306)),
                 [board_I2C; SSD1306_I2C 128 64; display_fill 0;
                  setup_warning e])
            | inr _ =>
                match display_answer env
                        (((h ++ [board_I2C]) ++ [SSD1306_I2C 128 64]) ++
                         [display_fill 0])
                        display_show with
                | inl e =>
                    (inr (equipped (Some SSD1306)),
                     setup_frame ++ [setup_warning e])
                | inr _ => (inr (equipped (Some SSD1306)), setup_frame)
                end
            end
        end
    end.
Proof.
  unfold setup_modules, initialize_nfc, initialize_bluetooth.
  unfold try_except, bind, display_call, call, emit, ret.
  destruct (display_answer env h board_I2C) as [e | []]; [reflexivity |].
  destruct (display_answer env (h ++ [board_I2C]) (SSD1306_I2C 128 64))
    as [e | []]; [reflexivity |].
  destruct (display_answer env _ (display_fill 0)) as [e | []];
    [reflexivity |].
  destruct (display_answer env _ display_show) as [e | []]; reflexivity.
Qed.

(** X15: [setup_modules] never raises, whatever the display hardware does,
    and the device it leaves always holds an NFC reader and a Bluetooth
    scanner: the guard of [advanced_bluetooth_scan] against a missing
    scanner never fires on such a device. *)
Theorem setup_modules_equips env h :
  exists disp,
    result (setup_modules env) h = inr (equipped disp) /\
    forall env' h',
      gpio_answer env' h' LED_PIN HIGH = inr tt ->
      In (bluetooth_discover_devices 8 true)
         (events (scan_cycle env' (equipped disp)) h').
Proof.
  assert (Hscan : forall disp env' h',
             gpio_answer env' h' LED_PIN HIGH = inr tt ->
             In (bluetooth_discover_devices 8 true)
                (events (scan_cycle env' (equipped disp)) h')).
  { intros disp env' h' Hhigh. unfold events.
    rewrite scan_cycle_run.
    destruct (scan_body_run env' (equipped disp) h')
      as (wn & ev_w & bd & ev_b & ev_d & _ & Eb & _ & ->).
    cbv zeta in *. rewrite Hhigh.
    rewrite advanced_bluetooth_scan_run in Eb. cbn [bluetooth_scanner equipped] in Eb.
    assert (Hb : In (bluetooth_discover_devices 8 true) ev_b).
    { destruct (discover_devices_answer env' _); injection Eb as _ <-;
        left; reflexivity. }
    destruct (gpio_answer env' _ LED_PIN LOW); cbn [snd]; list_norm;
      right; apply in_or_app; right; apply in_or_app; left; exact Hb. }
  unfold result. rewrite setup_modules_run.
  destruct (display_answer env h board_I2C) as [e | []];
    [exists None; split; [reflexivity | apply Hscan] |].
  destruct (display_answer env (h ++ [board_I2C]) (SSD1306_I2C 128 64))
    as [e | []]; [exists None; split; [reflexivity | apply Hscan] |].
  destruct (display_answer env _ (display_fill 0)) as [e | []];
    [exists (Some SSD1306); split; [reflexivity | apply Hscan] |].
  destruct (display_answer env _ display_show) as [e | []];
    exists (Some SSD1306); (split; [reflexivity | apply Hscan]).
Qed.

(** After a setup in which the OLED never answers, a cycle still runs
    Bluetooth discovery. *)
Lemma setup_no_oled_then_cycle :
  exists dev,
    result (setup_modules Sample.no_oled) [] = inr dev /\
    In (bluetooth_discover_devices 8 true)
       (events (scan_cycle Sample.healthy dev) []).
Proof.
  destruct (setup_modules_equips Sample.no_oled []) as (disp & Hr & Hc).
  exists (equipped disp). split; [exact Hr |].
  apply Hc. reflexivity.
Defined.

(** X16: [setup_modules] leaves a display attribute exactly when opening
    the I2C bus and constructing the driver both return; an error of the
    first [fill] or [show] is logged and the attribute stays. *)
Theorem setup_display_iff env h dev :
  result (setup_modules env) h = inr dev ->
  (display dev = Some SSD1306 <->
   display_answer env h board_I2C = inr tt /\
   display_answer env (h ++ [board_I2C]) (SSD1306_I2C 128 64) = inr tt).
Proof.
  unfold result. rewrite setup_modules_run.
  destruct (display_answer env h board_I2C) as [e | []].
  { intros [= <-]. cbn. split; [discriminate | intros [H _]; discriminate]. }
  destruct (display_answer env (h ++ [board_I2C]) (SSD1306_I2C 128 64))
    as [e | []].
  { intros [= <-]. cbn. split; [discriminate | intros [_ H]; discriminate]. }
  destruct (display_answer env _ (display_fill 0)) as [e | []].
  { intros [= <-]. cbn. split; auto. }
  destruct (display_answer env _ display_show) as [e | []];
    intros [= <-]; cbn; split; auto.
Qed.

(** The OLED that fails when the frame is shown: the attribute is set.  The
    OLED that never answers: it is not. *)
Lemma setup_display_samples :
  display (equipped (Some SSD1306)) = Some SSD1306 /\
  result (setup_modules More.show_fails) [] = inr (equipped (Some SSD1306)) /\
  ~ display Sample.headless = Some SSD1306.
Proof.
  split; [| split].
  - apply (setup_display_iff More.show_fails [] (equipped (Some SSD1306))
             eq_refl).
    split; reflexivity.
  - reflexivity.
  - intros H.
    apply (setup_display_iff Sample.no_oled [] Sample.headless eq_refl) in H.
    destruct H as [H _]. discriminate H.
Defined.


Lemma scans_make_no_display_call env self :
  emits (fun e => is_display_call e = false) (wifi_scan env) /\
  emits (fun e => is_display_call e = false) (advanced_bluetooth_scan env self).
Proof.
  split; intros h.
  - rewrite wifi_scan_run.
    destruct (check_output_answer env h iwlist) as [e | output]; cbn [snd].
    + repeat constructor.
    + destruct (parse_lines (Py.split Py.newline output) []); cbn [snd];
        repeat constructor.
  - rewrite advanced_bluetooth_scan_run.
    destruct (bluetooth_scanner self); cbn [snd]; [| constructor].
    destruct (discover_devices_answer env h) as [e | nearby]; cbn [snd].
    + repeat constructor.
    + constructor; [reflexivity |].
      unfold lookups. rewrite map_map. apply Forall_map.
      apply Forall_forall. intros p _. reflexivity.
Qed.

(** X18: a device without the display attribute never calls the display
    driver, in any number of turns of the loop and whatever the
    environment does. *)
Theorem headless_loop_is_dark env self n :
  display self = None ->
  forall h, count is_display_call (events (scan_loop env self n) h) = 0.
Proof.
  intros Hnone.
  assert (Hcycle : forall h,
             count is_display_call (events (scan_cycle env self) h) = 0).
  { intros h. unfold events. rewrite scan_cycle_run.
    destruct (scan_body_run env self h)
      as (wn & ev_w & bd & ev_b & ev_d & Ew & Eb & Ed & ->).
    cbv zeta in *.
    destruct (scans_make_no_display_call env self) as [Hw Hb].
    specialize (Hw (h ++ [GPIO_output LED_PIN HIGH])). rewrite Ew in Hw.
    specialize (Hb ((h ++ [GPIO_output LED_PIN HIGH]) ++ ev_w)).
    rewrite Eb in Hb. cbn [snd] in *.
    unfold update_display in Ed. rewrite Hnone in Ed.
    injection Ed as <-.
    destruct (gpio_answer env h LED_PIN HIGH); [reflexivity |].
    destruct (gpio_answer env _ LED_PIN LOW); cbn [snd]; list_norm;
      rewrite ?count_cons, ?count_app, (count_none _ _ Hw),
        (count_none _ _ Hb); reflexivity. }
  induction n as [| n IH]; intros h.
  - reflexivity.
  - rewrite scan_loop_events_S, count_app, Hcycle, IH. reflexivity.
Qed.

(** The device a failed display setup leaves, run for three turns. *)
Lemma headless_three_turns :
  result (setup_modules Sample.no_oled) [] = inr Sample.headless /\
  count is_display_call
    (events (scan_loop Sample.healthy Sample.headless 3) []) = 0.
Proof.
  split; [reflexivity |].
  apply (headless_loop_is_dark Sample.healthy Sample.headless 3).
  reflexivity.
Defined.

(** ** How often a cycle scans *)

Lemma update_display_makes_no_scan env self wifi_nets bt_devices :
  emits (fun e => is_check_output e = false /\ is_discover e = false)
        (update_display env self wifi_nets bt_devices).
Proof.
  unfold update_display. apply emits_try.
  - destruct (display self); [| apply emits_ret].
    repeat (apply emits_bind; [| intros _]);
      apply emits_call; split; reflexivity.
  - intros e. apply emits_emit. split; reflexivity.
Qed.

(** X19: a cycle calls the Wi-Fi tool exactly once and, when the device
    holds a scanner, Bluetooth discovery exactly once, provided the write
    that lights the LED returned; when that write raises, the cycle makes
    no scan call at all.  No scan is retried within a cycle. *)
Theorem scans_once_per_cycle env self h :
  let ev := events (scan_cycle env self) h in
  count is_check_output ev =
    match gpio_answer env h LED_PIN HIGH with inr _ => 1 | inl _ => 0 end /\
  count is_discover ev =
    match gpio_answer env h LED_PIN HIGH, bluetooth_scanner self with
    | inr _, Some _ => 1
    | _, _ => 0
    end.
Proof.
  cbv zeta. unfold events. rewrite scan_cycle_run.
  destruct (scan_body_run env self h)
    as (wn & ev_w & bd & ev_b & ev_d & Ew & Eb & Ed & ->).
  cbv zeta in *.
  destruct (gpio_answer env h LED_PIN HIGH) as [e | []].
  { split; reflexivity. }
  assert (Hw : count is_check_output ev_w = 1 /\ count is_discover ev_w = 0).
  { rewrite wifi_scan_run in Ew.
    destruct (check_output_answer env _ iwlist) as [e | output].
    - injection Ew as _ <-. split; reflexivity.
    - destruct (parse_lines _ []); injection Ew as _ <-; split; reflexivity. }
  assert (Hb : count is_check_output ev_b = 0 /\
               count is_discover ev_b =
                 match bluetooth_scanner self with Some _ => 1 | None => 0 end).
  { rewrite advanced_bluetooth_scan_run in Eb.
    destruct (bluetooth_scanner self).
    - destruct (discover_devices_answer env _) as [e | nearby];
        injection Eb as _ <-; [split; reflexivity |].
      rewrite !count_cons. cbn [is_check_output is_discover].
      split; (rewrite count_none; [reflexivity |]);
        unfold lookups; rewrite map_map; apply Forall_map;
        apply Forall_forall; intros p _; reflexivity.
    - injection Eb as _ <-. split; reflexivity. }
  assert (Hd : count is_check_output ev_d = 0 /\ count is_discover ev_d = 0).
  { pose proof (update_display_makes_no_scan env self wn bd
                  ((h ++ [GPIO_output LED_PIN HIGH]) ++
                   ev_w ++ ev_b ++ count_logs wn bd)) as H.
    rewrite Ed in H. cbn [snd] in H.
    split; apply count_none; (eapply Forall_impl; [| exact H]);
      intros x [Hx1 Hx2]; assumption. }
  destruct Hw as [Hw1 Hw2], Hb as [Hb1 Hb2], Hd as [Hd1 Hd2].
  destruct (gpio_answer env _ LED_PIN LOW); cbn [snd]; unfold count_logs;
    list_norm;
    repeat first [ rewrite count_cons | rewrite count_app ];
    rewrite Hw1, Hw2, Hb1, Hb2, Hd1, Hd2;
    destruct (bluetooth_scanner self); split; reflexivity.
Qed.

(** ** Construction *)

Lemma configure_ready genv todo :
  (forall done c, genv done c = inr tt) ->
  forall done, configure genv done todo = (None, todo).
Proof.
  intros Hg. induction todo as [| c todo IH]; intros done; cbn [configure].
  - reflexivity.
  - rewrite Hg, IH. reflexivity.
Qed.

Lemma configure_none genv todo : forall done made,
  configure genv done todo = (None, made) -> made = todo.
Proof.
  induction todo as [| c todo IH]; intros done made; cbn [configure].
  - intros [= <-]. reflexivity.
  - destruct (genv done c); [discriminate |].
    destruct (configure genv (done ++ [c]) todo) as [r made'] eqn:E.
    intros [= -> <-]. rewrite (IH _ _ E). reflexivity.
Qed.

Lemma configure_some genv todo : forall done made e,
  configure genv done todo = (Some e, made) ->
  exists k c,
    nth_error todo k = Some c /\
    made = firstn (S k) todo /\
    genv (done ++ firstn k todo) c = inl e.
Proof.
  induction todo as [| c todo IH]; intros done made e; cbn [configure].
  - discriminate.
  - destruct (genv done c) as [e' | u] eqn:Ec.
    + intros [= -> <-]. exists 0, c. rewrite app_nil_r. auto.
    + destruct (configure genv (done ++ [c]) todo) as [r made'] eqn:E.
      intros [= -> <-].
      destruct (IH _ _ _ E) as (k & c' & Hk & Hm & Hc).
      exists (S k), c'. cbn [nth_error firstn].
      rewrite <- app_assoc in Hc. cbn [app] in Hc.
      rewrite Hm. auto.
Qed.

(** X20: with a GPIO library that answers, construction returns a device
    whatever the display does.  It sets the BCM mode, turns warnings off,
    sets up pins 17, 22 and 27 as pulled-up inputs and pin 18 as output,
    in that order, and only then makes the calls of [setup_modules]. *)
Theorem init_succeeds genv env :
  (forall done c, genv done c = inr tt) ->
  exists disp,
    FlipperPiDevice_init genv env =
      (inr (equipped disp),
       [gpio_config GPIO_setmode_BCM; gpio_config (GPIO_setwarnings false);
        gpio_config (GPIO_setup 17 IN_PUD_UP);
        gpio_config (GPIO_setup 22 IN_PUD_UP);
        gpio_config (GPIO_setup 27 IN_PUD_UP);
        gpio_config (GPIO_setup 18 OUT)] ++
       map module_call (events (setup_modules env) [])).
Proof.
  intros Hg. unfold FlipperPiDevice_init.
  rewrite (configure_ready genv init_calls Hg).
  unfold events. rewrite setup_modules_run.
  destruct (display_answer env [] board_I2C) as [e | []];
    [exists None; reflexivity |].
  destruct (display_answer env _ (SSD1306_I2C 128 64)) as [e | []];
    [exists None; reflexivity |].
  destruct (display_answer env _ (display_fill 0)) as [e | []];
    [exists (Some SSD1306); reflexivity |].
  destruct (display_answer env _ display_show) as [e | []];
    exists (Some SSD1306); reflexivity.
Qed.

(** Construction with an OLED that never answers. *)
Lemma init_without_oled :
  exists disp,
    FlipperPiDevice_init More.gpio_ready Sample.no_oled =
      (inr (equipped disp),
       [gpio_config GPIO_setmode_BCM; gpio_config (GPIO_setwarnings false);
        gpio_config (GPIO_setup 17 IN_PUD_UP);
        gpio_config (GPIO_setup 22 IN_PUD_UP);
        gpio_config (GPIO_setup 27 IN_PUD_UP);
        gpio_config (GPIO_setup 18 OUT);
        module_call board_I2C;
        module_call (setup_warning (Sample.oserror "Remote I/O error"))]).
Proof.
  apply (init_succeeds More.gpio_ready Sample.no_oled).
  intros done c. reflexivity.
Defined.

(** X21: construction raises only when a GPIO configuration call raises.
    The calls made are then the configuration calls up to that one: the
    pins after it are left as they were and no module is set up. *)
Theorem init_failure genv env e ev :
  FlipperPiDevice_init genv env = (inl e, ev) ->
  exists k c,
    nth_error init_calls k = Some c /\
    genv (firstn k init_calls) c = inl e /\
    ev = map gpio_config (firstn (S k) init_calls) /\
    forallb is_gpio_config ev = true.
Proof.
  unfold FlipperPiDevice_init.
  destruct (configure genv [] init_calls) as [[e' |] made] eqn:Ec.
  - intros [= -> <-].
    destruct (configure_some _ _ _ _ _ Ec) as (k & c & Hk & Hm & Hc).
    exists k, c. cbn [app] in Hc. subst made.
    repeat split; try assumption.
    rewrite forallb_forall. intros x Hx. apply in_map_iff in Hx.
    destruct Hx as (c' & <- & _). reflexivity.
  - rewrite setup_modules_run.
    destruct (display_answer env [] board_I2C) as [e1 | []];
      [discriminate |].
    destruct (display_answer env _ (SSD1306_I2C 128 64)) as [e1 | []];
      [discriminate |].
    destruct (display_answer env _ (display_fill 0)) as [e1 | []];
      [discriminate |].
    destruct (display_answer env _ display_show) as [e1 | []]; discriminate.
Qed.

(** Pin 27 cannot be set up: pins 17 and 22 are configured, pin 18 and the
    modules are not. *)
Lemma init_pin27_busy :
  exists k c,
    nth_error init_calls k = Some c /\
    More.pin27_busy (firstn k init_calls) c =
      inl (Sample.runtime_error "pin 27 is busy") /\
    [gpio_config GPIO_setmode_BCM; gpio_config (GPIO_setwarnings false);
     gpio_config (GPIO_setup 17 IN_PUD_UP);
     gpio_config (GPIO_setup 22 IN_PUD_UP);
     gpio_config (GPIO_setup 27 IN_PUD_UP)] =
      map gpio_config (firstn (S k) init_calls) /\
    forallb is_gpio_config
      [gpio_config GPIO_setmode_BCM; gpio_config (GPIO_setwarnings false);
       gpio_config (GPIO_setup 17 IN_PUD_UP);
       gpio_config (GPIO_setup 22 IN_PUD_UP);
       gpio_config (GPIO_setup 27 IN_PUD_UP)] = true.
Proof.
  apply (init_failure More.pin27_busy Sample.healthy). reflexivity.
Defined.
